(** * The Desktop component: pointer protocol, geometry and focus stack

    A shallow embedding of [Desktop] (the component that owns the drag
    handlers of all [Window] components) and of the helpers it is built
    from: [isDragElement], [isFocusableElement], [getEventPosition],
    [moveElement], [resizeElement], [handleFocusChange], [handleMouseDown],
    [handleMouseMove], [handleMouseUp] and the touch variants.

    Conventions of the embedding.
    - Pixel coordinates are integers ([Z]).
    - An inline style holds strings, as the DOM does: a length is written
      by the template literal [`${x}px`], a [zIndex] by the conversion of a
      number to a string, and both are read back as strings.
    - The mounted [.window] elements are a list in document order,
      followed by the other elements of the document that carry an inline
      style; an element refers to its [parentNode] by position in that
      sequence, and a position beyond it stands for no parent at all.
    - An assignment to a style property goes through the style setter,
      which ignores a value that is not valid for the property: a negative
      [width] or [height], a [zIndex] that is not an integer.
    - The handlers run in a small state-and-exception monad over the
      component state (the DOM styles, the [dragState] ref, the focused
      element).
    - [minWidth], [minHeight] and [bodyMargin], imported from the Window
      component, and the layout reported by [getBoundingClientRect] are
      parameters. *)

From Stdlib Require Import ZArith Lia String Ascii DecimalString DecimalPos DecimalZ.
From stdpp Require Import base option list strings.

Local Open Scope Z_scope.

(** ** JavaScript primitives used by the component *)

Module JS.

(** A number as far as this component computes with it: an integer, or
    [NaN] (the result of converting a string that is not a number). *)
Inductive number :=
| Num (z : Z)
| NaN.

(** [Number::toString] on an integer: decimal digits, a leading minus
    sign for negatives. *)
Definition string_of_Z (z : Z) : string :=
  NilZero.string_of_int (Z.to_int z).

Definition ToString (n : number) : string :=
  match n with
  | Num z => string_of_Z z
  | NaN => "NaN"
  end.

(** [ToNumber] on a string, for the strings an inline [zIndex] holds
    here: the empty string converts to 0, an optional minus sign
    followed by decimal digits to that integer. Every other string is
    mapped to [NaN]. *)
Definition ToNumber (s : string) : number :=
  if String.eqb s "-" then NaN
  else match NilEmpty.int_of_string s with
       | Some d => Num (Z.of_int d)
       | None => NaN
       end.

(** [n - 1] on numbers. *)
Definition minus_one (n : number) : number :=
  match n with
  | Num z => Num (z - 1)
  | NaN => NaN
  end.

(** [a > b] when both operands are strings: no conversion to numbers
    takes place, the strings are compared code unit by code unit and a
    proper prefix is the smaller one. *)
Definition string_gt (a b : string) : bool :=
  match String.compare a b with
  | Gt => true
  | _ => false
  end.

(** Truthiness of a number that is not [NaN]: everything but zero. *)
Definition truthy (x : Z) : bool := negb (x =? 0).

(** The template literal [`${x}px`]. *)
Definition px (x : Z) : string := String.append (string_of_Z x) "px".

(** [classList.contains(c)]. *)
Definition contains (classes : list string) (c : string) : bool :=
  existsb (String.eqb c) classes.

End JS.

(** ** The part of the DOM the component reads and writes *)

(** An element with an inline style, that is, its inline style: a
    mounted [.window] element or another element of the document. *)
Record window := Window {
  style_left : string;
  style_top : string;
  style_width : string;
  style_height : string;
  style_zIndex : string
}.

Definition set_left (w : window) (v : string) : window :=
  Window v (style_top w) (style_width w) (style_height w) (style_zIndex w).
Definition set_top (w : window) (v : string) : window :=
  Window (style_left w) v (style_width w) (style_height w) (style_zIndex w).
Definition set_width (w : window) (v : string) : window :=
  Window (style_left w) (style_top w) v (style_height w) (style_zIndex w).
Definition set_height (w : window) (v : string) : window :=
  Window (style_left w) (style_top w) (style_width w) v (style_zIndex w).
Definition set_zIndex (w : window) (v : string) : window :=
  Window (style_left w) (style_top w) (style_width w) (style_height w) v.

(** The assignments [style.width = `${x}px`] and [style.height = ...]: a
    negative length is not a valid width or height, the style setter
    ignores it and the property keeps its value. Every length is a valid
    [left] or [top]. *)
Definition assign_width (w : window) (x : Z) : window :=
  if x <? 0 then w else set_width w (JS.px x).
Definition assign_height (w : window) (x : Z) : window :=
  if x <? 0 then w else set_height w (JS.px x).

(** The assignment of a number to [style.zIndex]: the number is
    converted to a string; the decimal form of an integer is stored,
    ["NaN"] is not a valid value and is ignored. *)
Definition assign_zIndex (w : window) (n : JS.number) : window :=
  match n with
  | JS.Num _ => set_zIndex w (JS.ToString n)
  | JS.NaN => w
  end.

(** A child element of a window (a resizer, the title bar, the body) or
    any other element an event can target. [parentNode] is the position
    of the parent: among the mounted windows for a child of a window,
    behind them for a child of another element, and beyond both for an
    element that has no parent. *)
Record element := Element {
  classList : list string;
  parentNode : nat
}.

Record touch := Touch {
  touch_clientX : Z;
  touch_clientY : Z
}.

(** A mouse or touch event. A mouse event has no [touches]; the client
    coordinates of a touch event are not read. *)
Record event := Event {
  event_type : string;
  event_target : option element;
  event_clientX : Z;
  event_clientY : Z;
  event_touches : list touch
}.

(** The result of [getBoundingClientRect()]. *)
Record rect := Rect {
  rect_top : Z;
  rect_left : Z;
  rect_width : Z;
  rect_height : Z
}.

(** The object stored in [dragState.current]. *)
Record drag := Drag {
  drag_element : element;
  drag_x : Z;
  drag_y : Z;
  drag_top : Z;
  drag_left : Z;
  drag_width : Z;
  drag_height : Z
}.

(** What has input focus: the desktop surface, or the element at a
    position (a window, as a rule). *)
Inductive focus :=
| FocusDesktop
| FocusWindow (i : nat).

(** The state the handlers act on: the mounted windows (what
    [getElementsByClassName("window")] returns), the [dragState] ref, the
    focused element, the other styled elements of the document.
    [prevented] counts the calls of [event.preventDefault()]. *)
Record desktop := Document {
  windows : list window;
  dragState : option drag;
  activeElement : focus;
  prevented : nat;
  others : list window
}.

(** A state whose styled elements are the windows only. *)
Definition DesktopState (ws : list window) (d : option drag) (f : focus) (n : nat)
  : desktop :=
  Document ws d f n [].

Definition set_windows (st : desktop) (ws : list window) : desktop :=
  Document ws (dragState st) (activeElement st) (prevented st) (others st).
Definition set_dragState (st : desktop) (d : option drag) : desktop :=
  Document (windows st) d (activeElement st) (prevented st) (others st).
Definition set_activeElement (st : desktop) (f : focus) : desktop :=
  Document (windows st) (dragState st) f (prevented st) (others st).
Definition set_prevented (st : desktop) (n : nat) : desktop :=
  Document (windows st) (dragState st) (activeElement st) n (others st).
Definition set_others (st : desktop) (os : list window) : desktop :=
  Document (windows st) (dragState st) (activeElement st) (prevented st) os.

(** The element at a position, if any, and the state with that element
    replaced. *)
Definition node (st : desktop) (i : nat) : option window :=
  (windows st ++ others st) !! i.

Definition set_node (st : desktop) (i : nat) (w : window) : desktop :=
  if (i <? length (windows st))%nat
  then set_windows st (<[i := w]> (windows st))
  else set_others st (<[(i - length (windows st))%nat := w]> (others st)).

Definition alter_node (f : window -> window) (i : nat) (st : desktop) : desktop :=
  if (i <? length (windows st))%nat
  then set_windows st (alter f i (windows st))
  else set_others st (alter f (i - length (windows st))%nat (others st)).

(** ** Handlers: state passing with exceptions *)

Inductive exn :=
| TypeError.

Inductive outcome (A : Type) :=
| Returned (a : A)
| Thrown (e : exn).
Arguments Returned {A} a.
Arguments Thrown {A} e.

(** A handler maps the state before to its outcome and the state after;
    a thrown exception keeps the writes made before it. *)
Definition handler (A : Type) : Type := desktop -> outcome A * desktop.

Definition hret {A} (a : A) : handler A := fun st => (Returned a, st).

Definition hbind {A B} (m : handler A) (k : A -> handler B) : handler B :=
  fun st =>
    match m st with
    | (Returned a, st') => k a st'
    | (Thrown e, st') => (Thrown e, st')
    end.

Definition lift {A} (o : outcome A) : handler A := fun st => (o, st).
Definition gets {A} (f : desktop -> A) : handler A := fun st => (Returned (f st), st).
Definition modify (f : desktop -> desktop) : handler unit := fun st => (Returned tt, f st).

Global Instance handler_ret : MRet handler := @hret.
Global Instance handler_bind : MBind handler := fun A B k m => hbind m k.

(** ** Constants of the component *)

Definition requiredViewportWidth : Z := 800.
Definition requiredViewportHeight : Z := 600.

(** The nine kinds of drag handle, in the order in which
    [handleMouseMove] tests for them, and the class name that marks each. *)
Inductive handleKind :=
| move
| resizeE
| resizeS
| resizeSE
| resizeNE
| resizeW
| resizeN
| resizeSW
| resizeNW.

Definition className (k : handleKind) : string :=
  match k with
  | move => "titleBar"
  | resizeE => "rightResizer"
  | resizeS => "bottomResizer"
  | resizeSE => "bottomRightResizer"
  | resizeNE => "topRightResizer"
  | resizeW => "leftResizer"
  | resizeN => "topResizer"
  | resizeSW => "bottomLeftResizer"
  | resizeNW => "topLeftResizer"
  end.

(** ** Classification of elements *)

Definition isDragElement (element : option element) : bool :=
  match element with
  | None => false
  | Some element =>
      let classes := classList element in
      JS.contains classes "titleBar" ||
      JS.contains classes "topResizer" ||
      JS.contains classes "leftResizer" ||
      JS.contains classes "rightResizer" ||
      JS.contains classes "bottomResizer" ||
      JS.contains classes "topLeftResizer" ||
      JS.contains classes "topRightResizer" ||
      JS.contains classes "bottomLeftResizer" ||
      JS.contains classes "bottomRightResizer"
  end.

Definition isFocusableElement (element : option element) : bool :=
  match element with
  | None => false
  | Some e =>
      let classes := classList e in
      isDragElement element || JS.contains classes "body"
  end.

(** ** Pointer position of a mouse or touch event *)

(** [event.touches[0]] is [undefined] on an empty list, and reading
    [clientX] of it throws. *)
Definition getEventPosition (event : event) : outcome (Z * Z) :=
  if String.prefix "touch" (event_type event)
  then match event_touches event !! 0%nat with
       | Some t => Returned (touch_clientX t, touch_clientY t)
       | None => Thrown TypeError
       end
  else Returned (event_clientX event, event_clientY event).

(** ** Writing a window's position and size *)

(** [element] is the position of the element to write to; the guard
    [if (!element) return] is the case of no element there. *)
Definition moveElement (element : nat) (x y : Z) : handler unit :=
  fun st =>
    match node st element with
    | None => (Returned tt, st)
    | Some w =>
        let w := if JS.truthy x then set_left w (JS.px x) else w in
        let w := if JS.truthy y then set_top w (JS.px y) else w in
        (Returned tt, set_node st element w)
    end.

Definition resizeElement (element : nat) (width height : Z) : handler unit :=
  fun st =>
    match node st element with
    | None => (Returned tt, st)
    | Some w =>
        let w := if JS.truthy width then assign_width w width else w in
        let w := if JS.truthy height then assign_height w height else w in
        (Returned tt, set_node st element w)
    end.

Definition preventDefaultIf (preventDefault : bool) : handler unit :=
  if preventDefault
  then modify (fun st => set_prevented st (S (prevented st)))
  else hret tt.

(** ** Focus stack *)

(** One turn of the loop over [visibleWindows]. Both [currentIndex] and
    [cutoffIndex] are read from [style.zIndex] and are strings, so
    [currentIndex > cutoffIndex] compares strings; the subtraction
    converts the string to a number, the assignment converts the number
    back. A turn reads and writes the style of its own window only, so
    the loop is a map over the list. *)
Definition shiftDown (cutoffIndex : string) (w : window) : window :=
  let currentIndex := style_zIndex w in
  if JS.string_gt currentIndex cutoffIndex
  then assign_zIndex w (JS.minus_one (JS.ToNumber currentIndex))
  else w.

(** [event.target.parentNode] is whatever element the target hangs
    under, a mounted window or not; reading [parentNode] of no target, or
    [style] of no parent, throws. The loop runs over the mounted windows
    only; the parent is raised and focused afterwards. *)
Definition handleFocusChange (event : event) : handler unit :=
  fun st =>
    let visibleWindows := windows st in
    match event_target event with
    | None => (Thrown TypeError, st)
    | Some e =>
        let target := parentNode e in
        match node st target with
        | None => (Thrown TypeError, st)
        | Some targetWindow =>
            let cutoffIndex := style_zIndex targetWindow in
            let shifted := set_windows st (shiftDown cutoffIndex <$> visibleWindows) in
            let top := Z.max (Z.of_nat (length visibleWindows) - 1) 0 in
            let raised :=
              alter_node (fun w => assign_zIndex w (JS.Num top)) target shifted in
            (Returned tt, set_activeElement raised (FocusWindow target))
        end
    end.

(** ** Pointer protocol *)

Section Handlers.

(** Exported by the Window component. *)
Context (minWidth minHeight bodyMargin : Z).

(** Layout of an element as the rendering engine reports it. *)
Context (getBoundingClientRect : window -> rect).

Definition handleMouseDown (event : event) (preventDefault : bool) : handler unit :=
  preventDefaultIf preventDefault;;
  let element := event_target event in
  (if isFocusableElement element
   then handleFocusChange event
   else modify (fun st => set_activeElement st FocusDesktop));;
  match element with
  | Some e =>
      if isDragElement element
      then
        '(x, y) ← lift (getEventPosition event);
        parent ← gets (fun st => node st (parentNode e));
        match parent with
        | None => lift (Thrown TypeError)
        | Some window =>
            let r := getBoundingClientRect window in
            modify (fun st => set_dragState st
              (Some (Drag e x y (rect_top r) (rect_left r) (rect_width r) (rect_height r))))
        end
      else hret tt
  | None => hret tt
  end.

Definition handleMouseMove (event : event) (preventDefault : bool) : handler unit :=
  preventDefaultIf preventDefault;;
  state ← gets dragState;
  match state with
  | None => hret tt
  | Some state =>
      let element := drag_element state in
      let window := parentNode element in
      '(x, y) ← lift (getEventPosition event);
      let xResizeDelta := drag_width state + x - drag_x state in
      let yResizeDelta := drag_height state + y - drag_y state in
      let xResizeOffset := drag_width state - x + drag_x state in
      let yResizeOffset := drag_height state - y + drag_y state in
      let xMoveDelta := drag_left state + x - drag_x state in
      let yMoveDelta := drag_top state + y - drag_y state in
      let xMoveLimit := drag_left state + drag_width state - minWidth in
      let yMoveLimit := drag_top state + drag_height state - minHeight - bodyMargin - 1 in
      if JS.contains (classList element) "titleBar" then
        moveElement window xMoveDelta yMoveDelta
      else if JS.contains (classList element) "rightResizer" then
        resizeElement window xResizeDelta 0
      else if JS.contains (classList element) "bottomResizer" then
        resizeElement window 0 yResizeDelta
      else if JS.contains (classList element) "bottomRightResizer" then
        resizeElement window xResizeDelta yResizeDelta
      else if JS.contains (classList element) "topRightResizer" then
        moveElement window 0 yMoveDelta;;
        resizeElement window xResizeDelta yResizeOffset
      else if JS.contains (classList element) "leftResizer" then
        moveElement window (Z.min xMoveDelta xMoveLimit) 0;;
        resizeElement window (Z.max xResizeOffset minWidth) 0
      else if JS.contains (classList element) "topResizer" then
        moveElement window 0 (Z.min yMoveDelta yMoveLimit);;
        resizeElement window 0 (Z.max yResizeOffset minHeight)
      else if JS.contains (classList element) "bottomLeftResizer" then
        moveElement window (Z.min xMoveDelta xMoveLimit) 0;;
        resizeElement window (Z.max xResizeOffset minWidth) yResizeDelta
      else if JS.contains (classList element) "topLeftResizer" then
        moveElement window (Z.min xMoveDelta xMoveLimit) (Z.min yMoveDelta yMoveLimit);;
        resizeElement window (Z.max xResizeOffset minWidth) (Z.max yResizeOffset minHeight)
      else hret tt
  end.

Definition handleMouseUp (event : event) (preventDefault : bool) : handler unit :=
  preventDefaultIf preventDefault;;
  d ← gets dragState;
  match d with
  | Some _ => modify (fun st => set_dragState st None)
  | None => hret tt
  end.

Definition handleTouchStart (event : event) : handler unit :=
  handleMouseDown event false.

Definition handleTouchMove (event : event) : handler unit :=
  handleMouseMove event false.

Definition handleTouchEnd (event : event) : handler unit :=
  handleMouseUp event false.

End Handlers.

(** ** What the component renders *)

(** The element returned by [Desktop]: the desktop surface with its six
    listeners and the windows, or the BlueScreen with its two props. *)
Inductive view :=
| DesktopSurface
    (onTouchStart onTouchEnd onTouchMove onMouseDown onMouseUp onMouseMove :
       event -> handler unit)
    (children : list window)
| BlueScreen (errorCode cause : string).

Section Render.

Context (minWidth minHeight bodyMargin : Z).
Context (getBoundingClientRect : window -> rect).

(** A listener is called with the event only, so [preventDefault] takes
    its default value [true] in the mouse handlers. *)
Definition Desktop (children : list window) (width height : Z) : view :=
  if (width >=? requiredViewportWidth) && (height >=? requiredViewportHeight)
  then
    DesktopSurface
      (handleTouchStart getBoundingClientRect)
      handleTouchEnd
      (handleTouchMove minWidth minHeight bodyMargin)
      (fun event => handleMouseDown getBoundingClientRect event true)
      (fun event => handleMouseUp event true)
      (fun event => handleMouseMove minWidth minHeight bodyMargin event true)
      children
  else
    BlueScreen "0x1A (INVALID_SCREEN_SIZE)"
      (String.append "The system requires a screen resolution of at least "
      (String.append (JS.string_of_Z requiredViewportWidth)
      (String.append "x"
      (String.append (JS.string_of_Z requiredViewportHeight)
      (String.append ". Current resolution is "
      (String.append (JS.string_of_Z width)
      (String.append "x"
      (String.append (JS.string_of_Z height) ".")))))))).

End Render.

(** The six pointer events the desktop surface listens to. *)
Inductive pointer :=
| TouchStart
| TouchEnd
| TouchMove
| MouseDown
| MouseUp
| MouseMove.

(** Delivery of a pointer event to what is rendered: the listener of the
    desktop surface runs; the BlueScreen was given none. *)
Definition deliver (v : view) (p : pointer) (event : event) : handler unit :=
  match v with
  | DesktopSurface onTouchStart onTouchEnd onTouchMove onMouseDown onMouseUp onMouseMove _ =>
      match p with
      | TouchStart => onTouchStart event
      | TouchEnd => onTouchEnd event
      | TouchMove => onTouchMove event
      | MouseDown => onMouseDown event
      | MouseUp => onMouseUp event
      | MouseMove => onMouseMove event
      end
  | BlueScreen _ _ => hret tt
  end.

Definition engaged (v : view) : bool :=
  match v with
  | DesktopSurface _ _ _ _ _ _ _ => true
  | BlueScreen _ _ => false
  end.

Definition isDown (p : pointer) : bool :=
  match p with
  | TouchStart | MouseDown => true
  | _ => false
  end.

(** The state after a stream of events; an exception ends the handler
    that threw it and nothing else. *)
Definition run (v : view) (stream : list (pointer * event)) (st : desktop) : desktop :=
  fold_left (fun st pe => snd (deliver v pe.1 pe.2 st)) stream st.

(** ** The geometry table and the z-order invariant, as specified *)

(** The kind of handle an element is, by the first class name that
    [handleMouseMove] finds on it. *)
Definition handleOf (e : element) : option handleKind :=
  find (fun k => JS.contains (classList e) (className k))
    [move; resizeE; resizeS; resizeSE; resizeNE; resizeW; resizeN; resizeSW; resizeNW].

(** A row of the table: the value listed for each field, if any. *)
Record row := Row {
  row_left : option Z;
  row_top : option Z;
  row_width : option Z;
  row_height : option Z
}.

Section Geometry.

Context (minWidth minHeight bodyMargin : Z).

(** The table of the geometry engine, for a session with start
    rectangle and anchor [s] and the pointer at [(x, y)]. *)
Definition geometryTable (k : handleKind) (s : drag) (x y : Z) : row :=
  let dxMove := drag_left s + x - drag_x s in
  let dyMove := drag_top s + y - drag_y s in
  let dxResize := drag_width s + x - drag_x s in
  let dyResize := drag_height s + y - drag_y s in
  let dxResizeOffset := drag_width s - x + drag_x s in
  let dyResizeOffset := drag_height s - y + drag_y s in
  let xMoveLimit := drag_left s + drag_width s - minWidth in
  let yMoveLimit := drag_top s + drag_height s - minHeight - bodyMargin - 1 in
  match k with
  | move => Row (Some dxMove) (Some dyMove) None None
  | resizeE => Row None None (Some dxResize) None
  | resizeS => Row None None None (Some dyResize)
  | resizeSE => Row None None (Some dxResize) (Some dyResize)
  | resizeNE => Row None (Some dyMove) (Some dxResize) (Some dyResizeOffset)
  | resizeW =>
      Row (Some (Z.min dxMove xMoveLimit)) None
          (Some (Z.max dxResizeOffset minWidth)) None
  | resizeN =>
      Row None (Some (Z.min dyMove yMoveLimit))
          None (Some (Z.max dyResizeOffset minHeight))
  | resizeSW =>
      Row (Some (Z.min dxMove xMoveLimit)) None
          (Some (Z.max dxResizeOffset minWidth)) (Some dyResize)
  | resizeNW =>
      Row (Some (Z.min dxMove xMoveLimit)) (Some (Z.min dyMove yMoveLimit))
          (Some (Z.max dxResizeOffset minWidth)) (Some (Z.max dyResizeOffset minHeight))
  end.

End Geometry.

(** A left or top after a pointer-move, given its table entry: a listed
    value other than zero is written, anything else leaves the field
    alone. *)
Definition written (entry : option Z) (old : string) : string :=
  match entry with
  | Some v => if v =? 0 then old else JS.px v
  | None => old
  end.

(** A width or height after a pointer-move, given its table entry: a
    listed value above zero is written; zero is not assigned, and a
    negative length is assigned but ignored by the style setter. *)
Definition writtenLength (entry : option Z) (old : string) : string :=
  match entry with
  | Some v => if 0 <? v then JS.px v else old
  | None => old
  end.

Definition applyRow (r : row) (w : window) : window :=
  Window (written (row_left r) (style_left w))
         (written (row_top r) (style_top w))
         (writtenLength (row_width r) (style_width w))
         (writtenLength (row_height r) (style_height w))
         (style_zIndex w).

(** The z-order values of the mounted windows are exactly 0 .. N-1, each
    held by one window: the list of [zIndex] strings is a rearrangement
    of the decimal forms of 0 .. N-1. *)
Definition zIndexOf (n : nat) : string := JS.ToString (JS.Num (Z.of_nat n)).

Definition zOrdered (ws : list window) : Prop :=
  style_zIndex <$> ws ≡ₚ zIndexOf <$> seq 0 (length ws).

(** Promotion on the z-order values themselves, as specified: with
    [cutoff] the value of the target, every value above [cutoff] goes down
    by one and the target takes the top slot, max (N - 1) 0. *)
Definition promote (zs : list nat) (target : nat) : list nat :=
  match zs !! target with
  | None => zs
  | Some cutoff =>
      <[target := Nat.max (length zs - 1) 0]>
        ((fun z => if (cutoff <? z)%nat then (z - 1)%nat else z) <$> zs)
  end.

(** ** Sample inputs *)

Module Sample.

(** A handle as the Window component renders it: the marker class and
    the class of the style sheet module. *)
Definition handleElement (k : handleKind) (parent : nat) : element :=
  Element [className k; String.append "Window_" (className k)] parent.

Definition bodyElement (parent : nat) : element :=
  Element ["body"; "Window_body"] parent.

Definition mouse (type : string) (target : option element) (x y : Z) : event :=
  Event type target x y [].

Definition touchEvent (type : string) (target : option element) (ts : list touch) : event :=
  Event type target 0 0 ts.

(** Layout that reports a fixed rectangle. *)
Definition fixedRect (r : rect) : window -> rect := fun _ => r.

(** Move delta: start rectangle top 100, left 100, 200 by 150, pressed
    at (50, 50). *)
Definition moveSession : drag := Drag (handleElement move 0) 50 50 100 100 200 150.
Definition moveState : desktop :=
  DesktopState [Window "100px" "100px" "200px" "150px" "0"] (Some moveSession)
               (FocusWindow 0) 0.

(** West resize: start rectangle at the origin, 100 by 100, pressed at
    (0, 0). *)
Definition westSession : drag := Drag (handleElement resizeW 0) 0 0 0 0 100 100.
Definition westState : desktop :=
  DesktopState [Window "0px" "0px" "100px" "100px" "0"] (Some westSession)
               (FocusWindow 0) 0.

(** A move that started with the window at left 10, top 20 and the
    pointer at (50, 30); an earlier pointer-move has brought the window
    to left 1, top 24. *)
Definition edgeSession : drag := Drag (handleElement move 0) 50 30 20 10 200 150.
Definition edgeState : desktop :=
  DesktopState [Window "1px" "24px" "200px" "150px" "0"] (Some edgeSession)
               (FocusWindow 0) 1.

(** An east resize of a window at left 50, 100 wide, pressed on its
    right edge at (150, 50). *)
Definition eastSession : drag := Drag (handleElement resizeE 0) 150 50 0 50 100 100.
Definition eastState : desktop :=
  DesktopState [Window "50px" "0px" "100px" "100px" "0"] (Some eastSession)
               (FocusWindow 0) 0.

(** Two windows and a session on the first one that was never ended. *)
Definition staleSession : drag := Drag (handleElement move 0) 50 30 20 10 200 150.
Definition staleState : desktop :=
  DesktopState [Window "10px" "20px" "200px" "150px" "0";
                Window "300px" "20px" "200px" "150px" "1"]
               (Some staleSession) (FocusWindow 0) 0.

(** Windows stacked in mount order. *)
Definition stacked (n : nat) : list window :=
  (fun i => Window "0px" "0px" "200px" "150px" (zIndexOf i)) <$> seq 0 n.

Definition idle (ws : list window) : desktop :=
  DesktopState ws None FocusDesktop 0.

Definition pressBody (i : nat) : event :=
  mouse "mousedown" (Some (bodyElement i)) 0 0.

End Sample.

(** ** The Window component *)

(** The ten class names the desktop looks for. *)
Definition markerNames : list string :=
  ["titleBar"; "topResizer"; "leftResizer"; "rightResizer"; "bottomResizer";
   "topLeftResizer"; "topRightResizer"; "bottomLeftResizer"; "bottomRightResizer";
   "body"].

Module WindowComponent.

Section Children.

(** The style sheet module: the class names it gives for a local name. *)
Context (styles : string -> list string).

(** A child with [className={`name ${styles.name}`}]. *)
Definition child (name : string) (parent : nat) : element :=
  Element (name :: styles name) parent.

(** The children of the [.window] element that [Window] renders, in
    document order: the eight resizers when [isResizable], then the title
    bar and the body. [parent] is the position of the window among the
    mounted ones. *)
Definition children (isResizable : bool) (parent : nat) : list element :=
  (if isResizable
   then [child "topResizer" parent; child "rightResizer" parent;
         child "bottomResizer" parent; child "leftResizer" parent;
         child "topLeftResizer" parent; child "topRightResizer" parent;
         child "bottomLeftResizer" parent; child "bottomRightResizer" parent]
   else []) ++
  [child "titleBar" parent; child "body" parent].

(** The [.window] element itself: [style={{ width, height, top, left }}],
    no [zIndex]. *)
Definition element_style (width height top left : string) : window :=
  Window left top width height "".

End Children.

End WindowComponent.

(** Windows that agree on the rectangle, and windows that agree on the
    z-order value. *)
Definition sameRect (w w' : window) : Prop :=
  style_left w' = style_left w /\ style_top w' = style_top w /\
  style_width w' = style_width w /\ style_height w' = style_height w.

Definition sameZIndex (w w' : window) : Prop :=
  style_zIndex w' = style_zIndex w.

Definition isMouse (p : pointer) : bool :=
  match p with
  | MouseDown | MouseUp | MouseMove => true
  | _ => false
  end.

(** The state after pressing the bodies of the windows [targets], one
    after the other. *)
Definition pressAll (targets : list nat) (st : desktop) : desktop :=
  fold_left (fun st t => (handleFocusChange (Sample.pressBody t) st).2) targets st.

Module MoreSamples.

(** Class names as a style sheet module produces them. *)
Definition hashed (name : string) : list string :=
  [String.append "Window_" (String.append name "__x9f2")].

(** Freshly mounted windows: no [zIndex] yet. *)
Definition fresh (n : nat) : list window :=
  replicate n (WindowComponent.element_style "200px" "150px" "0px" "0px").

(** A west resize of a window at left 40, 100 wide, pressed on its left
    edge at (40, 60). *)
Definition westSession : drag := Drag (Sample.handleElement resizeW 0) 40 60 10 40 100 120.
Definition westState : desktop :=
  DesktopState [Window "40px" "10px" "100px" "120px" "0"] (Some westSession)
               (FocusWindow 0) 0.

(** A stream without a press on a handle: a move, a press on a body, a
    move, a release. *)
Definition strayStream : list (pointer * event) :=
  [(MouseMove, Sample.mouse "mousemove" None 10 10);
   (MouseDown, Sample.mouse "mousedown" (Some (Sample.bodyElement 1)) 350 100);
   (TouchMove, Sample.touchEvent "touchmove" None [Touch 12 12]);
   (MouseUp, Sample.mouse "mouseup" None 12 12)].


(** Two stacked windows and a tool bar that is not a window; an element
    of the tool bar that carries the class of a title bar. *)
Definition toolbar : window := Window "0px" "0px" "" "" "".
Definition withToolbar : desktop :=
  Document (Sample.stacked 2) None FocusDesktop 0 [toolbar].
Definition toolbarHandle : element := Element ["titleBar"] 2.

End MoreSamples.

(** ** Running the handlers *)

Lemma hbind_run {A B} (m : handler A) (k : A -> handler B) st :
  (m ≫= k) st =
  match m st with
  | (Returned a, st') => k a st'
  | (Thrown e, st') => (Thrown e, st')
  end.
Proof. reflexivity. Qed.

Lemma preventDefaultIf_run pd st :
  preventDefaultIf pd st =
  (Returned tt, set_prevented st (if pd then S (prevented st) else prevented st)).
Proof. destruct pd, st; reflexivity. Qed.

(** A position among the mounted windows. *)
Lemma node_window st i w : windows st !! i = Some w -> node st i = Some w.
Proof. intros Hw. unfold node. by apply lookup_app_l_Some. Qed.

Lemma set_node_window st i w w' :
  windows st !! i = Some w ->
  set_node st i w' = set_windows st (<[i := w']> (windows st)).
Proof.
  intros Hw. unfold set_node. apply lookup_lt_Some in Hw.
  by destruct (Nat.ltb_spec i (length (windows st))); [|lia].
Qed.

Lemma alter_node_window f st i w :
  windows st !! i = Some w ->
  alter_node f i st = set_windows st (alter f i (windows st)).
Proof.
  intros Hw. unfold alter_node. apply lookup_lt_Some in Hw.
  by destruct (Nat.ltb_spec i (length (windows st))); [|lia].
Qed.

Lemma truthy_assign_width w x :
  (if JS.truthy x then assign_width w x else w) =
  set_width w (writtenLength (Some x) (style_width w)).
Proof.
  unfold JS.truthy, assign_width, writtenLength.
  destruct w, (Z.eqb_spec x 0), (Z.ltb_spec x 0), (Z.ltb_spec 0 x); cbn; try reflexivity; lia.
Qed.

Lemma truthy_assign_height w x :
  (if JS.truthy x then assign_height w x else w) =
  set_height w (writtenLength (Some x) (style_height w)).
Proof.
  unfold JS.truthy, assign_height, writtenLength.
  destruct w, (Z.eqb_spec x 0), (Z.ltb_spec x 0), (Z.ltb_spec 0 x); cbn; try reflexivity; lia.
Qed.

Lemma moveElement_run i x y st w :
  windows st !! i = Some w ->
  moveElement i x y st =
  (Returned tt,
   set_windows st
     (<[i := Window (written (Some x) (style_left w)) (written (Some y) (style_top w))
                    (style_width w) (style_height w) (style_zIndex w)]> (windows st))).
Proof.
  intros Hw. unfold moveElement. rewrite (node_window _ _ _ Hw), (set_node_window _ _ _ _ Hw).
  unfold JS.truthy, written.
  destruct w; destruct (x =? 0), (y =? 0); reflexivity.
Qed.

Lemma resizeElement_run i width height st w :
  windows st !! i = Some w ->
  resizeElement i width height st =
  (Returned tt,
   set_windows st
     (<[i := Window (style_left w) (style_top w)
                    (writtenLength (Some width) (style_width w))
                    (writtenLength (Some height) (style_height w)) (style_zIndex w)]>
        (windows st))).
Proof.
  intros Hw. unfold resizeElement.
  rewrite (node_window _ _ _ Hw), (set_node_window _ _ _ _ Hw).
  cbv zeta. rewrite truthy_assign_width, truthy_assign_height. by destruct w.
Qed.

(** A move followed by a resize of the same window. *)
Lemma move_then_resize i x y width height st w :
  windows st !! i = Some w ->
  (moveElement i x y;; resizeElement i width height) st =
  (Returned tt,
   set_windows st
     (<[i := Window (written (Some x) (style_left w)) (written (Some y) (style_top w))
                    (writtenLength (Some width) (style_width w))
                    (writtenLength (Some height) (style_height w)) (style_zIndex w)]>
        (windows st))).
Proof.
  intros Hw. rewrite hbind_run, (moveElement_run _ _ _ _ _ Hw).
  erewrite resizeElement_run.
  2:{ cbn [windows set_windows]. apply list_lookup_insert_eq. eapply lookup_lt_Some, Hw. }
  cbn. by rewrite list_insert_insert_eq.
Qed.

(** [handleMouseMove] with an active session writes the row of the table
    for the kind of the pressed handle. *)
Lemma handleMouseMove_applyRow minWidth minHeight bodyMargin st s k w event pd x y :
  dragState st = Some s ->
  handleOf (drag_element s) = Some k ->
  windows st !! parentNode (drag_element s) = Some w ->
  getEventPosition event = Returned (x, y) ->
  handleMouseMove minWidth minHeight bodyMargin event pd st =
  (Returned tt,
   set_windows (set_prevented st (if pd then S (prevented st) else prevented st))
     (<[parentNode (drag_element s) :=
          applyRow (geometryTable minWidth minHeight bodyMargin k s x y) w]> (windows st))).
Proof.
  intros Hs Hk Hw Hpos. unfold handleMouseMove.
  rewrite hbind_run, preventDefaultIf_run, hbind_run.
  set (st1 := set_prevented st _).
  assert (Hw1 : windows st1 !! parentNode (drag_element s) = Some w) by exact Hw.
  cbn [gets]. change (dragState st1) with (dragState st). rewrite Hs.
  rewrite hbind_run. unfold lift at 1. rewrite Hpos.
  revert Hk. unfold handleOf. cbn [find className].
  repeat (destruct (JS.contains _ _);
          [ intros [= <-];
            first [ rewrite (moveElement_run _ _ _ _ _ Hw1)
                  | rewrite (resizeElement_run _ _ _ _ _ Hw1)
                  | rewrite (move_then_resize _ _ _ _ _ _ _ Hw1) ];
            reflexivity
          | ]).
  discriminate.
Qed.

(** ** Geometry of a pointer-move *)

(** C1 (as amended). With an active session started on a handle of kind
    [k], a pointer-move at [(x, y)] returns normally and sets every field
    that the geometry table lists for [k] to the listed value (in pixels)
    whenever that value can be written: move sets left and top, resizeE
    the width, resizeS the height, resizeSE both, resizeNE top, width and
    the unclamped height, and resizeW, resizeN, resizeSW, resizeNW the
    clamped values. A listed value that is exactly zero is not written,
    and a listed width or height that is negative is ignored by the style
    setter: in both cases the field keeps the value it had. *)
Theorem handleMouseMove_table minWidth minHeight bodyMargin st s k w event pd x y :
  dragState st = Some s ->
  handleOf (drag_element s) = Some k ->
  windows st !! parentNode (drag_element s) = Some w ->
  getEventPosition event = Returned (x, y) ->
  let r := geometryTable minWidth minHeight bodyMargin k s x y in
  let res := handleMouseMove minWidth minHeight bodyMargin event pd st in
  res.1 = Returned tt /\
  exists w',
    windows res.2 !! parentNode (drag_element s) = Some w' /\
    (forall v, row_left r = Some v ->
       style_left w' = if v =? 0 then style_left w else JS.px v) /\
    (forall v, row_top r = Some v ->
       style_top w' = if v =? 0 then style_top w else JS.px v) /\
    (forall v, row_width r = Some v ->
       style_width w' = if 0 <? v then JS.px v else style_width w) /\
    (forall v, row_height r = Some v ->
       style_height w' = if 0 <? v then JS.px v else style_height w).
Proof.
  intros Hs Hk Hw Hpos r res. subst res.
  rewrite (handleMouseMove_applyRow _ _ _ _ _ _ _ _ _ _ _ Hs Hk Hw Hpos).
  split; [reflexivity|]. exists (applyRow r w). cbn [snd windows set_windows].
  split.
  { apply list_lookup_insert_eq. eapply lookup_lt_Some, Hw. }
  unfold applyRow, written, writtenLength; cbn.
  repeat split; by intros v ->.
Qed.

(** The worked examples: a move by (+20, -10) gives left 120 and top 90
    and keeps the size; a west resize with [minWidth = 50] dragged 80 to
    the right clamps the width to 50 and the left edge to 50. *)
Lemma handleMouseMove_table_examples :
  (style_left <$> windows
     (handleMouseMove 50 40 8 (Sample.mouse "mousemove" None 70 40) true
        Sample.moveState).2 !! 0%nat = Some "120px" /\
   style_top <$> windows
     (handleMouseMove 50 40 8 (Sample.mouse "mousemove" None 70 40) true
        Sample.moveState).2 !! 0%nat = Some "90px" /\
   style_width <$> windows
     (handleMouseMove 50 40 8 (Sample.mouse "mousemove" None 70 40) true
        Sample.moveState).2 !! 0%nat = Some "200px" /\
   style_height <$> windows
     (handleMouseMove 50 40 8 (Sample.mouse "mousemove" None 70 40) true
        Sample.moveState).2 !! 0%nat = Some "150px") /\
  (style_width <$> windows
     (handleMouseMove 50 40 8 (Sample.mouse "mousemove" None 80 0) true
        Sample.westState).2 !! 0%nat = Some "50px" /\
   style_left <$> windows
     (handleMouseMove 50 40 8 (Sample.mouse "mousemove" None 80 0) true
        Sample.westState).2 !! 0%nat = Some "50px").
Proof.
  split.
  - destruct (handleMouseMove_table 50 40 8 Sample.moveState Sample.moveSession move
                (Window "100px" "100px" "200px" "150px" "0")
                (Sample.mouse "mousemove" None 70 40) true 70 40
                eq_refl eq_refl eq_refl eq_refl)
      as (_ & w' & Hw' & Hl & Ht & _ & _).
    change (parentNode (drag_element Sample.moveSession)) with 0%nat in Hw'.
    split; [|split; [|split; vm_compute; reflexivity]].
    + rewrite Hw'. cbn [fmap option_fmap option_map].
      rewrite (Hl 120 eq_refl). reflexivity.
    + rewrite Hw'. cbn [fmap option_fmap option_map].
      rewrite (Ht 90 eq_refl). reflexivity.
  - destruct (handleMouseMove_table 50 40 8 Sample.westState Sample.westSession resizeW
                (Window "0px" "0px" "100px" "100px" "0")
                (Sample.mouse "mousemove" None 80 0) true 80 0
                eq_refl eq_refl eq_refl eq_refl)
      as (_ & w' & Hw' & Hl & _ & Hwd & _).
    change (parentNode (drag_element Sample.westSession)) with 0%nat in Hw'.
    rewrite Hw'. cbn [fmap option_fmap option_map].
    rewrite (Hl 50 eq_refl), (Hwd 50 eq_refl).
    split; reflexivity.
Defined.

(** C1, as stated, fails when a listed value is zero. A move session
    that began with the window at left 10 and the pointer at x = 50 has
    already brought the window to left 1; the pointer now reaches x = 40,
    for which the table lists left = 10 + 40 - 50 = 0. The left of the
    window stays at 1 pixel; only its top is written. *)
Lemma move_to_zero_keeps_left :
  handleOf (drag_element Sample.edgeSession) = Some move /\
  handleMouseMove 50 40 8 (Sample.mouse "mousemove" None 40 35) true Sample.edgeState =
    (Returned tt,
     DesktopState [Window "1px" "25px" "200px" "150px" "0"] (Some Sample.edgeSession)
                  (FocusWindow 0) 2) /\
  drag_left Sample.edgeSession + 40 - drag_x Sample.edgeSession = 0 /\
  style_left <$>
    windows (handleMouseMove 50 40 8 (Sample.mouse "mousemove" None 40 35) true
               Sample.edgeState).2 !! 0%nat <>
    Some (JS.px (drag_left Sample.edgeSession + 40 - drag_x Sample.edgeSession)).
Proof.
  split; [reflexivity|]. split; [reflexivity|]. split; [reflexivity|].
  vm_compute. discriminate.
Qed.

(** C6. A pointer-move on a handle of kind [k] changes no window but the
    owner of the handle, keeps the session and the [zIndex], and leaves
    alone every field of the rectangle that the table does not list for
    [k], as well as every listed field whose value is exactly zero. *)
Theorem handleMouseMove_frame minWidth minHeight bodyMargin st s k w event pd x y :
  dragState st = Some s ->
  handleOf (drag_element s) = Some k ->
  windows st !! parentNode (drag_element s) = Some w ->
  getEventPosition event = Returned (x, y) ->
  let r := geometryTable minWidth minHeight bodyMargin k s x y in
  let res := handleMouseMove minWidth minHeight bodyMargin event pd st in
  exists w',
    windows res.2 = <[parentNode (drag_element s) := w']> (windows st) /\
    dragState res.2 = dragState st /\
    style_zIndex w' = style_zIndex w /\
    (row_left r = None \/ row_left r = Some 0 -> style_left w' = style_left w) /\
    (row_top r = None \/ row_top r = Some 0 -> style_top w' = style_top w) /\
    (row_width r = None \/ row_width r = Some 0 -> style_width w' = style_width w) /\
    (row_height r = None \/ row_height r = Some 0 -> style_height w' = style_height w).
Proof.
  intros Hs Hk Hw Hpos r res. subst res.
  rewrite (handleMouseMove_applyRow _ _ _ _ _ _ _ _ _ _ _ Hs Hk Hw Hpos).
  exists (applyRow r w). cbn [snd windows dragState set_windows set_prevented].
  do 3 (split; [reflexivity|]).
  unfold applyRow, written, writtenLength; cbn.
  repeat split; intros [-> | ->]; reflexivity.
Qed.

(** An east resize whose new width would be 100 + 50 - 150 = 0: nothing
    is written at all. *)
Lemma handleMouseMove_frame_east_zero :
  exists w',
    windows (handleMouseMove 50 40 8 (Sample.mouse "mousemove" None 50 50) true
               Sample.eastState).2 = [w'] /\
    style_zIndex w' = "0" /\ style_left w' = "50px" /\ style_top w' = "0px" /\
    style_width w' = "100px" /\ style_height w' = "100px".
Proof.
  destruct (handleMouseMove_frame 50 40 8 Sample.eastState Sample.eastSession resizeE
              (Window "50px" "0px" "100px" "100px" "0")
              (Sample.mouse "mousemove" None 50 50) true 50 50
              eq_refl eq_refl eq_refl eq_refl)
    as (w' & Hws & _ & Hz & Hl & Ht & Hwd & Hh).
  exists w'. split; [exact Hws|].
  rewrite Hz, (Hl (or_introl eq_refl)), (Ht (or_introl eq_refl)),
    (Hwd (or_intror eq_refl)), (Hh (or_introl eq_refl)).
  repeat split; reflexivity.
Defined.

(** C4, as stated, fails on the far edges: no clamp comes before the
    write there. An east resize of a window 100 wide, pressed at x = 150:
    with the pointer at x = 55 the width written is 100 + 55 - 150 = 5
    pixels, far below [minWidth = 50]; with the pointer at x = 20 the
    handler is the call of [resizeElement] with the width -30, and the
    width stays at 100 pixels only because the style setter ignores the
    negative length. *)
Lemma east_resize_has_no_floor :
  handleOf (drag_element Sample.eastSession) = Some resizeE /\
  0 <= drag_width Sample.eastSession /\ 0 <= drag_height Sample.eastSession /\
  handleMouseMove 50 40 8 (Sample.mouse "mousemove" None 55 50) true Sample.eastState =
    (Returned tt,
     DesktopState [Window "50px" "0px" "5px" "100px" "0"] (Some Sample.eastSession)
                  (FocusWindow 0) 1) /\
  5 < 50 /\
  handleMouseMove 50 40 8 (Sample.mouse "mousemove" None 20 50) true Sample.eastState =
    (preventDefaultIf true;; resizeElement 0 (-30) 0) Sample.eastState /\
  -30 < 0 /\
  (preventDefaultIf true;; resizeElement 0 (-30) 0) Sample.eastState =
    (Returned tt,
     DesktopState [Window "50px" "0px" "100px" "100px" "0"] (Some Sample.eastSession)
                  (FocusWindow 0) 1).
Proof. repeat split; first [reflexivity | discriminate]. Qed.

(** C4 (as amended). On the near edges the clamp comes before the write:
    with positive minimums, a pointer-move on resizeW, resizeSW or
    resizeNW writes the width [max (width - x + ax) minWidth], which is at
    least [minWidth], and a pointer-move on resizeN or resizeNW writes the
    height [max (height - y + ay) minHeight], which is at least
    [minHeight]. The far-edge values, the width [width + x - ax] on
    resizeE and resizeSE and the height [height + y - ay] on resizeS,
    resizeSE and resizeSW, have no floor: a value above zero is written as
    it is, however small; zero is not written and a negative value is
    ignored by the style setter, so the field keeps the value it had. *)
Theorem near_edge_clamped minWidth minHeight bodyMargin st s k w event pd x y :
  0 < minWidth -> 0 < minHeight ->
  dragState st = Some s ->
  handleOf (drag_element s) = Some k ->
  windows st !! parentNode (drag_element s) = Some w ->
  getEventPosition event = Returned (x, y) ->
  let res := handleMouseMove minWidth minHeight bodyMargin event pd st in
  exists w',
    windows res.2 !! parentNode (drag_element s) = Some w' /\
    (k = resizeW \/ k = resizeSW \/ k = resizeNW ->
     exists v, v = Z.max (drag_width s - x + drag_x s) minWidth /\
               minWidth <= v /\ 0 < v /\ style_width w' = JS.px v) /\
    (k = resizeN \/ k = resizeNW ->
     exists v, v = Z.max (drag_height s - y + drag_y s) minHeight /\
               minHeight <= v /\ 0 < v /\ style_height w' = JS.px v) /\
    (k = resizeE \/ k = resizeSE ->
     style_width w' =
       if 0 <? drag_width s + x - drag_x s
       then JS.px (drag_width s + x - drag_x s) else style_width w) /\
    (k = resizeS \/ k = resizeSE \/ k = resizeSW ->
     style_height w' =
       if 0 <? drag_height s + y - drag_y s
       then JS.px (drag_height s + y - drag_y s) else style_height w).
Proof.
  intros HminW HminH Hs Hk Hw Hpos res. subst res.
  rewrite (handleMouseMove_applyRow _ _ _ _ _ _ _ _ _ _ _ Hs Hk Hw Hpos).
  eexists. cbn [snd windows set_windows]. split.
  { apply list_lookup_insert_eq. eapply lookup_lt_Some, Hw. }
  split; [|split; [|split]].
  - intros Hkind. eexists. split; [reflexivity|].
    split; [lia|]. split; [lia|].
    assert (Hpos' : (0 <? Z.max (drag_width s - x + drag_x s) minWidth) = true)
      by (apply Z.ltb_lt; lia).
    destruct Hkind as [-> | [-> | ->]]; cbn; unfold writtenLength; by rewrite Hpos'.
  - intros Hkind. eexists. split; [reflexivity|].
    split; [lia|]. split; [lia|].
    assert (Hpos' : (0 <? Z.max (drag_height s - y + drag_y s) minHeight) = true)
      by (apply Z.ltb_lt; lia).
    destruct Hkind as [-> | ->]; cbn; unfold writtenLength; by rewrite Hpos'.
  - intros Hkind. by destruct Hkind as [-> | ->].
  - intros Hkind. by destruct Hkind as [-> | [-> | ->]].
Qed.

(** The west resize of the worked example: the width written is
    max (100 - 80 + 0) 50 = 50. *)
Lemma near_edge_clamped_west :
  exists w',
    windows (handleMouseMove 50 40 8 (Sample.mouse "mousemove" None 80 0) true
               Sample.westState).2 !! 0%nat = Some w' /\
    style_width w' = "50px".
Proof.
  destruct (near_edge_clamped 50 40 8 Sample.westState Sample.westSession resizeW
              (Window "0px" "0px" "100px" "100px" "0")
              (Sample.mouse "mousemove" None 80 0) true 80 0
              eq_refl eq_refl eq_refl eq_refl eq_refl eq_refl)
    as (w' & Hw' & Hwd & _ & _ & _).
  exists w'. split; [exact Hw'|].
  destruct (Hwd (or_introl eq_refl)) as (v & -> & _ & _ & ->). reflexivity.
Defined.

(** ** The pointer protocol *)

Lemma string_compare_refl s : String.compare s s = Eq.
Proof.
  induction s as [|c s IH]; [reflexivity|]. cbn.
  unfold Ascii.compare. rewrite N.compare_refl. exact IH.
Qed.

Lemma string_gt_irrefl s : JS.string_gt s s = false.
Proof. unfold JS.string_gt. by rewrite string_compare_refl. Qed.

(** Without a session [handleMouseMove] stops after [preventDefault]. *)
Lemma handleMouseMove_idle_run minWidth minHeight bodyMargin st event pd :
  dragState st = None ->
  handleMouseMove minWidth minHeight bodyMargin event pd st =
  (Returned tt, set_prevented st (if pd then S (prevented st) else prevented st)).
Proof.
  intros Hs. unfold handleMouseMove.
  rewrite hbind_run, preventDefaultIf_run, hbind_run. cbn [gets].
  change (dragState (set_prevented st _)) with (dragState st). by rewrite Hs.
Qed.

(** C5. A pointer-move that finds no session returns at once: the
    windows (their rectangles and their [zIndex]) are what they were, and
    there is still no session. This holds for every event, also for one
    whose position could not be read. *)
Theorem handleMouseMove_no_session minWidth minHeight bodyMargin st event pd :
  dragState st = None ->
  let res := handleMouseMove minWidth minHeight bodyMargin event pd st in
  res.1 = Returned tt /\
  windows res.2 = windows st /\
  dragState res.2 = None /\
  activeElement res.2 = activeElement st.
Proof.
  intros Hs res. subst res. rewrite (handleMouseMove_idle_run _ _ _ _ _ _ Hs).
  repeat split. exact Hs.
Qed.

Lemma handleMouseMove_no_session_touch :
  (handleMouseMove 50 40 8 (Sample.touchEvent "touchmove" None []) false
     (Sample.idle (Sample.stacked 3))).1 = Returned tt /\
  windows (handleMouseMove 50 40 8 (Sample.touchEvent "touchmove" None []) false
     (Sample.idle (Sample.stacked 3))).2 = Sample.stacked 3.
Proof.
  destruct (handleMouseMove_no_session 50 40 8 (Sample.idle (Sample.stacked 3))
              (Sample.touchEvent "touchmove" None []) false eq_refl)
    as (Hret & Hws & _ & _).
  split; [exact Hret | exact Hws].
Defined.

(** Without a session, a press that is not on a drag handle starts none,
    whether the focus change returns or throws. *)
Lemma handleMouseDown_no_handle getBoundingClientRect st event pd :
  isDragElement (event_target event) = false ->
  dragState (handleMouseDown getBoundingClientRect event pd st).2 = dragState st.
Proof.
  intros Hd. unfold handleMouseDown.
  rewrite hbind_run, preventDefaultIf_run, hbind_run.
  set (st1 := set_prevented st _).
  assert (Hfocus : forall o st2,
            (if isFocusableElement (event_target event)
             then handleFocusChange event
             else modify (fun st => set_activeElement st FocusDesktop)) st1 = (o, st2) ->
            dragState st2 = dragState st).
  { intros o st2. destruct (isFocusableElement _).
    - unfold handleFocusChange. destruct (event_target event) as [e|]; [|by intros [= _ <-]].
      destruct (node st1 (parentNode e)); [|by intros [= _ <-]].
      intros [= _ <-]. unfold alter_node. by destruct (_ <? _)%nat.
    - by intros [= _ <-]. }
  destruct (_ st1) as [[[]|ex] st2]; specialize (Hfocus _ _ eq_refl).
  - rewrite Hd. by destruct (event_target event).
  - exact Hfocus.
Qed.

Lemma handleMouseUp_ends_session st event pd :
  dragState (handleMouseUp event pd st).2 = None.
Proof.
  unfold handleMouseUp. rewrite hbind_run, preventDefaultIf_run, hbind_run. cbn [gets].
  change (dragState (set_prevented st _)) with (dragState st).
  by destruct (dragState st) eqn:E.
Qed.

(** The end of a touch never reads the position of the event, so it
    returns normally whatever the list of touches is. *)
Lemma handleTouchEnd_returns event st :
  (handleTouchEnd event st).1 = Returned tt.
Proof.
  unfold handleTouchEnd, handleMouseUp. rewrite hbind_run. cbn [preventDefaultIf hret].
  rewrite hbind_run. cbn [gets]. by destruct (dragState st).
Qed.

(** As long as no press lands on a drag handle, the desktop stays idle:
    every pointer-move of such a stream finds no session. *)
Lemma idle_until_handle_pressed minWidth minHeight bodyMargin getBoundingClientRect
    children width height stream st :
  dragState st = None ->
  Forall (fun pe => isDown pe.1 = true -> isDragElement (event_target pe.2) = false) stream ->
  dragState
    (run (Desktop minWidth minHeight bodyMargin getBoundingClientRect children width height)
         stream st) = None.
Proof.
  intros Hs Hstream. revert st Hs. unfold run.
  induction Hstream as [|[p event] stream Hpe _ IH]; intros st Hs; [exact Hs|].
  cbn [fold_left]. apply IH. cbn [fst snd] in *.
  unfold Desktop. destruct (_ && _); [|exact Hs].
  destruct p; cbn [deliver isDown] in *.
  - unfold handleTouchStart. by rewrite handleMouseDown_no_handle; auto.
  - apply handleMouseUp_ends_session.
  - unfold handleTouchMove. by rewrite handleMouseMove_idle_run.
  - by rewrite handleMouseDown_no_handle; auto.
  - apply handleMouseUp_ends_session.
  - by rewrite handleMouseMove_idle_run.
Qed.

(** The focus change on a mounted window: the target itself is not
    shifted (its index is not greater than itself) and takes the top
    slot. *)
Lemma handleFocusChange_target st event e w :
  event_target event = Some e ->
  windows st !! parentNode e = Some w ->
  let res := handleFocusChange event st in
  res.1 = Returned tt /\
  dragState res.2 = dragState st /\
  prevented res.2 = prevented st /\
  length (windows res.2) = length (windows st) /\
  windows res.2 !! parentNode e =
    Some (set_zIndex w
            (JS.ToString (JS.Num (Z.max (Z.of_nat (length (windows st)) - 1) 0)))).
Proof.
  intros He Hw res. subst res. unfold handleFocusChange.
  rewrite He, (node_window _ _ _ Hw). cbv zeta.
  erewrite alter_node_window
    by (cbn [windows set_windows]; rewrite list_lookup_fmap, Hw; reflexivity).
  cbn [fst snd windows dragState prevented set_windows set_activeElement].
  repeat split.
  - by rewrite length_alter, length_fmap.
  - rewrite list_lookup_alter_eq, list_lookup_fmap, Hw. cbn.
    unfold shiftDown. by rewrite string_gt_irrefl.
Qed.

(** The same, as one equation on the state. *)
Lemma handleFocusChange_window st event e w :
  event_target event = Some e ->
  windows st !! parentNode e = Some w ->
  handleFocusChange event st =
  (Returned tt,
   set_activeElement
     (set_windows st
        (alter (fun w => set_zIndex w
                  (JS.ToString (JS.Num (Z.max (Z.of_nat (length (windows st)) - 1) 0))))
           (parentNode e) (shiftDown (style_zIndex w) <$> windows st)))
     (FocusWindow (parentNode e))).
Proof.
  intros He Hw. unfold handleFocusChange.
  rewrite He, (node_window _ _ _ Hw). cbv zeta.
  erewrite alter_node_window
    by (cbn [windows set_windows]; rewrite list_lookup_fmap, Hw; reflexivity).
  by destruct st.
Qed.

Lemma isDragElement_focusable e :
  isDragElement (Some e) = true -> isFocusableElement (Some e) = true.
Proof. intros H. unfold isFocusableElement. by rewrite H. Qed.

(** C8, as stated, fails for a press that is not on a drag handle. A
    move session on the first window was never ended; the next press is
    on the body of the second window. The session is still the old one,
    and the following pointer-move drags the first window. *)
Lemma press_off_handle_keeps_session :
  isDragElement (Some (Sample.bodyElement 1)) = false /\
  handleMouseDown (Sample.fixedRect (Rect 20 300 200 150))
    (Sample.mouse "mousedown" (Some (Sample.bodyElement 1)) 350 100) true
    Sample.staleState =
    (Returned tt,
     DesktopState (windows Sample.staleState) (Some Sample.staleSession) (FocusWindow 1) 1) /\
  windows
    (handleMouseMove 50 40 8 (Sample.mouse "mousemove" None 60 30) true
       (handleMouseDown (Sample.fixedRect (Rect 20 300 200 150))
          (Sample.mouse "mousedown" (Some (Sample.bodyElement 1)) 350 100) true
          Sample.staleState).2).2 =
    [Window "20px" "20px" "200px" "150px" "0";
     Window "300px" "20px" "200px" "150px" "1"] /\
  dragState
    (handleMouseDown (Sample.fixedRect (Rect 20 300 200 150))
       (Sample.mouse "mousedown" (Some (Sample.bodyElement 1)) 350 100) true
       Sample.staleState).2 <>
    Some (Drag (Sample.bodyElement 1) 350 100 20 300 200 150).
Proof.
  split; [reflexivity|]. split; [reflexivity|]. split; [reflexivity|].
  vm_compute. discriminate.
Qed.

(** The session written by a press on a drag handle, and the moves that
    follow it. *)
Lemma handleMouseDown_on_handle getBoundingClientRect st event pd e x y w :
  event_target event = Some e ->
  isDragElement (Some e) = true ->
  getEventPosition event = Returned (x, y) ->
  windows st !! parentNode e = Some w ->
  let w' := set_zIndex w
              (JS.ToString (JS.Num (Z.max (Z.of_nat (length (windows st)) - 1) 0))) in
  let r := getBoundingClientRect w' in
  exists st',
    handleMouseDown getBoundingClientRect event pd st = (Returned tt, st') /\
    windows st' !! parentNode e = Some w' /\
    dragState st' =
      Some (Drag e x y (rect_top r) (rect_left r) (rect_width r) (rect_height r)).
Proof.
  intros He Hd Hpos Hw w' r. unfold handleMouseDown.
  rewrite hbind_run, preventDefaultIf_run, hbind_run.
  set (st1 := set_prevented st _).
  rewrite He, (isDragElement_focusable _ Hd), Hd.
  destruct (handleFocusChange_target st1 event e w He Hw) as (Hret & _ & _ & _ & Hw').
  destruct (handleFocusChange event st1) as [o st2]. cbn [fst snd] in Hret, Hw'.
  subst o. rewrite hbind_run. unfold lift at 1. rewrite Hpos.
  rewrite hbind_run. cbn [gets]. rewrite (node_window _ _ _ Hw').
  eexists. split; [reflexivity|]. split; [exact Hw' | reflexivity].
Qed.

(** A press on a handle that does not hang under a mounted window goes
    through all the same: the windows are shifted against the [zIndex] of
    the parent (unset here, so both windows go down by one), the parent
    takes the top value and the focus, and the session is stored; the
    pointer-move that follows writes to the parent. *)
Lemma handleMouseDown_foreign_parent :
  handleMouseDown (Sample.fixedRect (Rect 0 0 640 32))
    (Sample.mouse "mousedown" (Some MoreSamples.toolbarHandle) 5 5) true
    MoreSamples.withToolbar =
  (Returned tt,
   Document [Window "0px" "0px" "200px" "150px" "-1";
             Window "0px" "0px" "200px" "150px" "0"]
     (Some (Drag MoreSamples.toolbarHandle 5 5 0 0 640 32)) (FocusWindow 2) 1
     [Window "0px" "0px" "" "" "1"]) /\
  handleMouseMove 50 40 8 (Sample.mouse "mousemove" None 15 25) true
    (handleMouseDown (Sample.fixedRect (Rect 0 0 640 32))
       (Sample.mouse "mousedown" (Some MoreSamples.toolbarHandle) 5 5) true
       MoreSamples.withToolbar).2 =
  (Returned tt,
   Document [Window "0px" "0px" "200px" "150px" "-1";
             Window "0px" "0px" "200px" "150px" "0"]
     (Some (Drag MoreSamples.toolbarHandle 5 5 0 0 640 32)) (FocusWindow 2) 2
     [Window "10px" "20px" "" "" "1"]).
Proof. split; reflexivity. Qed.

(** C8 (as amended). A press on a drag handle of a mounted window, at a
    position that can be read, replaces whatever session there was, a
    dangling one included, by the session of this press: the pressed
    handle, the position of the press and the rectangle of the owning
    window; the pointer-move that follows writes the row of the table for
    the new session (a zero is not written, a negative width or height is
    ignored by the style setter). A press that is not on a drag handle
    leaves the session as it was. *)
Theorem handleMouseDown_replaces_session getBoundingClientRect st event pd :
  let res := handleMouseDown getBoundingClientRect event pd st in
  (isDragElement (event_target event) = false -> dragState res.2 = dragState st) /\
  (forall e x y w,
     event_target event = Some e ->
     isDragElement (Some e) = true ->
     getEventPosition event = Returned (x, y) ->
     windows st !! parentNode e = Some w ->
     let w' := set_zIndex w
                 (JS.ToString (JS.Num (Z.max (Z.of_nat (length (windows st)) - 1) 0))) in
     let r := getBoundingClientRect w' in
     let session := Drag e x y (rect_top r) (rect_left r) (rect_width r) (rect_height r) in
     res.1 = Returned tt /\
     windows res.2 !! parentNode e = Some w' /\
     dragState res.2 = Some session /\
     forall minWidth minHeight bodyMargin k event' pd' x' y',
       handleOf e = Some k ->
       getEventPosition event' = Returned (x', y') ->
       windows (handleMouseMove minWidth minHeight bodyMargin event' pd' res.2).2 =
         <[parentNode e :=
             applyRow (geometryTable minWidth minHeight bodyMargin k session x' y') w']>
           (windows res.2)).
Proof.
  intros res. split.
  - intros Hd. by apply handleMouseDown_no_handle.
  - intros e x y w He Hd Hpos Hw w' r session. subst res.
    destruct (handleMouseDown_on_handle getBoundingClientRect st event pd e x y w
                He Hd Hpos Hw) as (st' & -> & Hw' & Hsession).
    cbn [fst snd]. repeat split; try done.
    intros minWidth minHeight bodyMargin k event' pd' x' y' Hk Hpos'.
    by rewrite (handleMouseMove_applyRow _ _ _ _ _ _ _ _ _ _ _ Hsession Hk Hw' Hpos').
Qed.

(** A press on the title bar of the second window while the session on
    the first one is still dangling. *)
Lemma handleMouseDown_replaces_stale_session :
  dragState
    (handleMouseDown (Sample.fixedRect (Rect 20 300 200 150))
       (Sample.mouse "mousedown" (Some (Sample.handleElement move 1)) 350 25) true
       Sample.staleState).2 =
  Some (Drag (Sample.handleElement move 1) 350 25 20 300 200 150).
Proof.
  destruct (handleMouseDown_replaces_session (Sample.fixedRect (Rect 20 300 200 150))
              Sample.staleState
              (Sample.mouse "mousedown" (Some (Sample.handleElement move 1)) 350 25) true)
    as (_ & Hhandle).
  destruct (Hhandle (Sample.handleElement move 1) 350 25
              (Window "300px" "20px" "200px" "150px" "1")
              eq_refl eq_refl eq_refl eq_refl)
    as (_ & _ & Hsession & _).
  exact Hsession.
Defined.

(** ** Reading the pointer position *)

(** C10. For an event whose type starts with "touch" the position is
    that of the first touch point; it can be read exactly when the list
    of touches is not empty. On an empty list the extraction throws, and
    so does a touch move that finds a session: the handler does not
    return normally, and it writes nothing. *)
Theorem getEventPosition_touch event :
  String.prefix "touch" (event_type event) = true ->
  (forall t ts, event_touches event = t :: ts ->
     getEventPosition event = Returned (touch_clientX t, touch_clientY t)) /\
  ((exists p, getEventPosition event = Returned p) <-> event_touches event <> []) /\
  (event_touches event = [] ->
     getEventPosition event = Thrown TypeError /\
     forall minWidth minHeight bodyMargin st s,
       dragState st = Some s ->
       handleTouchMove minWidth minHeight bodyMargin event st = (Thrown TypeError, st)).
Proof.
  intros Htouch. unfold getEventPosition. rewrite Htouch.
  split; [|split].
  - by intros t ts ->.
  - destruct (event_touches event) as [|t ts]; cbn.
    + split; [intros [p [=]] | done].
    + split; [done | eauto].
  - intros Hnil. rewrite Hnil. split; [reflexivity|].
    intros minWidth minHeight bodyMargin st s Hs.
    unfold handleTouchMove, handleMouseMove.
    rewrite hbind_run. cbn [preventDefaultIf hret]. rewrite hbind_run. cbn [gets].
    rewrite Hs, hbind_run. unfold lift at 1, getEventPosition.
    by rewrite Htouch, Hnil.
Qed.

(** A touch event without touch points delivered as a touch move during
    the west resize. *)
Lemma getEventPosition_touch_empty :
  getEventPosition (Sample.touchEvent "touchmove" None []) = Thrown TypeError /\
  handleTouchMove 50 40 8 (Sample.touchEvent "touchmove" None []) Sample.westState =
    (Thrown TypeError, Sample.westState).
Proof.
  destruct (getEventPosition_touch (Sample.touchEvent "touchmove" None []) eq_refl)
    as (_ & _ & Hempty).
  destruct (Hempty eq_refl) as (Hthrow & Hmove).
  split; [exact Hthrow|]. exact (Hmove 50 40 8 Sample.westState Sample.westSession eq_refl).
Defined.

(** ** The viewport guard *)

(** C9. [Desktop] renders the desktop surface, with the six pointer
    listeners and the windows, exactly when the viewport is at least
    800 by 600. Otherwise it renders the BlueScreen, which receives the
    error code and a cause naming the required and the current
    resolution; no listener is attached, so no event reaches a handler
    and the state of the window manager stays as it is. *)
Theorem Desktop_viewport minWidth minHeight bodyMargin getBoundingClientRect
    children width height :
  let v := Desktop minWidth minHeight bodyMargin getBoundingClientRect children width height in
  (engaged v = true <->
   requiredViewportWidth <= width /\ requiredViewportHeight <= height) /\
  (engaged v = true ->
   v = DesktopSurface
         (handleTouchStart getBoundingClientRect)
         handleTouchEnd
         (handleTouchMove minWidth minHeight bodyMargin)
         (fun event => handleMouseDown getBoundingClientRect event true)
         (fun event => handleMouseUp event true)
         (fun event => handleMouseMove minWidth minHeight bodyMargin event true)
         children) /\
  (engaged v = false ->
   v = BlueScreen "0x1A (INVALID_SCREEN_SIZE)"
         (String.append "The system requires a screen resolution of at least 800x600. Current resolution is "
         (String.append (JS.string_of_Z width)
         (String.append "x" (String.append (JS.string_of_Z height) ".")))) /\
   forall p event st, deliver v p event st = (Returned tt, st)).
Proof.
  intros v. subst v. unfold Desktop.
  destruct (width >=? requiredViewportWidth) eqn:Ew;
    destruct (height >=? requiredViewportHeight) eqn:Eh;
    cbn [andb engaged]; rewrite ?Z.geb_leb in Ew, Eh;
    rewrite ?Z.leb_le, ?Z.leb_gt in Ew, Eh.
  1: { split; [tauto|]. split; [reflexivity | discriminate]. }
  all: split; [split; [discriminate | lia]|];
       split; [discriminate|]; intros _; split; reflexivity.
Qed.

(** A viewport of 640 by 480. *)
Lemma Desktop_viewport_640_480 :
  Desktop 50 40 8 (Sample.fixedRect (Rect 0 0 200 150)) (Sample.stacked 2) 640 480 =
  BlueScreen "0x1A (INVALID_SCREEN_SIZE)"
    "The system requires a screen resolution of at least 800x600. Current resolution is 640x480.".
Proof.
  destruct (Desktop_viewport 50 40 8 (Sample.fixedRect (Rect 0 0 200 150))
              (Sample.stacked 2) 640 480) as (_ & _ & Hsmall).
  destruct (Hsmall eq_refl) as (Hview & _). exact Hview.
Defined.

(** ** The focus stack *)

(** Promotion keeps the values 0 .. N-1 in place, whatever N is. *)
Lemma promote_Permutation zs target :
  (target < length zs)%nat ->
  zs ≡ₚ seq 0 (length zs) ->
  promote zs target ≡ₚ seq 0 (length zs).
Proof.
  intros Ht Hperm. unfold promote.
  destruct (lookup_lt_is_Some_2 zs target Ht) as [c Hc]. rewrite Hc.
  set (f := fun z => if (c <? z)%nat then (z - 1)%nat else z).
  set (n := length zs) in *.
  assert (Hcn : (c < n)%nat).
  { assert (Hin : c ∈ seq 0 n) by (rewrite <- Hperm; eapply list_elem_of_lookup_2, Hc).
    apply elem_of_seq in Hin. lia. }
  (* the values other than the cutoff *)
  assert (Hrest : delete target zs ≡ₚ seq 0 c ++ seq (S c) (n - 1 - c)).
  { apply (Permutation_cons_inv (a := c)).
    rewrite <- (delete_Permutation zs target c Hc), Hperm.
    replace n with (c + S (n - 1 - c))%nat at 1 by lia.
    rewrite seq_app. cbn [seq]. by rewrite Permutation_middle. }
  (* the result, seen as the new top value in front of the shifted rest *)
  assert (Hins : <[target := Nat.max (n - 1) 0]> (f <$> zs)
                 ≡ₚ Nat.max (n - 1) 0 :: (f <$> delete target zs)).
  { rewrite insert_take_drop by (by rewrite length_fmap).
    rewrite <- Permutation_middle. f_equiv.
    by rewrite <- delete_take_drop, list_fmap_delete. }
  rewrite Hins, Hrest, fmap_app.
  assert (Hlow : f <$> seq 0 c = seq 0 c).
  { rewrite <- (list_fmap_id (seq 0 c)) at 2. apply list_fmap_ext.
    intros i z Hz. apply lookup_seq in Hz as [-> ?]. unfold f.
    destruct (Nat.ltb_spec c (0 + i)); [lia | done]. }
  assert (Hhigh : f <$> seq (S c) (n - 1 - c) = seq c (n - 1 - c)).
  { rewrite <- fmap_S_seq, <- list_fmap_compose.
    rewrite <- (list_fmap_id (seq c _)) at 2. apply list_fmap_ext.
    intros i z Hz. apply lookup_seq in Hz as [-> ?]. unfold f, compose.
    destruct (Nat.ltb_spec c (S (c + i))); cbn; lia. }
  rewrite Hlow, Hhigh.
  replace (Nat.max (n - 1) 0) with (n - 1)%nat by lia.
  replace (seq c (n - 1 - c)) with (seq (0 + c) (n - 1 - c)) by done.
  rewrite <- seq_app. replace (c + (n - 1 - c))%nat with (n - 1)%nat by lia.
  replace n with (S (n - 1)) at 3 by lia.
  rewrite seq_S. cbn. by rewrite Permutation_cons_append.
Qed.

(** Promoting the holder of the top value changes nothing. *)
Lemma promote_topmost zs target :
  zs ≡ₚ seq 0 (length zs) ->
  zs !! target = Some (length zs - 1)%nat ->
  promote zs target = zs.
Proof.
  intros Hperm Ht. unfold promote. rewrite Ht.
  replace (Nat.max (length zs - 1) 0) with (length zs - 1)%nat by lia.
  rewrite <- (list_insert_id zs target (length zs - 1)%nat Ht) at 3. f_equal.
  rewrite <- (list_fmap_id zs) at 2. apply list_fmap_ext. intros i z Hz.
  assert (Hin : z ∈ seq 0 (length zs)) by (rewrite <- Hperm; eapply list_elem_of_lookup_2, Hz).
  apply elem_of_seq in Hin. destruct (Nat.ltb_spec (length zs - 1) z); [lia | done].
Qed.

(** On one-digit values the comparison of the strings agrees with the
    comparison of the numbers, and the subtraction gives the decimal form
    of the predecessor. *)
Lemma digits_table :
  forallb (fun a => forallb (fun c =>
      Bool.eqb (JS.string_gt (zIndexOf a) (zIndexOf c)) (c <? a)%nat &&
      match JS.minus_one (JS.ToNumber (zIndexOf (S a))) with
      | JS.Num z => String.eqb (JS.string_of_Z z) (zIndexOf a)
      | JS.NaN => false
      end)
    (seq 0 10)) (seq 0 10) = true.
Proof. vm_compute. reflexivity. Qed.

Lemma digits_agree a c :
  (a < 10)%nat -> (c < 10)%nat ->
  JS.string_gt (zIndexOf a) (zIndexOf c) = (c <? a)%nat /\
  exists z, JS.minus_one (JS.ToNumber (zIndexOf (S a))) = JS.Num z /\
            JS.string_of_Z z = zIndexOf a.
Proof.
  intros Ha Hc. pose proof digits_table as H.
  rewrite forallb_forall in H. specialize (H a). rewrite in_seq in H.
  specialize (H ltac:(lia)). rewrite forallb_forall in H. specialize (H c).
  rewrite in_seq in H. specialize (H ltac:(lia)).
  apply andb_prop in H as [H1 H2]. split.
  - by apply Bool.eqb_prop.
  - destruct (JS.minus_one _) as [z|]; [|done]. exists z. split; [done|].
    by apply String.eqb_eq.
Qed.

Lemma shiftDown_digit w a c :
  (a < 10)%nat -> (c < 10)%nat ->
  style_zIndex w = zIndexOf a ->
  style_zIndex (shiftDown (zIndexOf c) w) =
  zIndexOf (if (c <? a)%nat then (a - 1)%nat else a).
Proof.
  intros Ha Hc Hw. unfold shiftDown. rewrite Hw.
  destruct (digits_agree a c Ha Hc) as [-> _].
  destruct (Nat.ltb_spec c a); [|exact Hw].
  destruct (digits_agree (a - 1) c ltac:(lia) Hc) as (_ & z & Hpred & Hz).
  replace (S (a - 1)) with a in Hpred by lia.
  by rewrite Hpred.
Qed.

(** With at most ten windows, whose values are then one-digit numbers,
    [handleFocusChange] is the promotion of the specification. *)
Lemma handleFocusChange_promote st event e zs :
  event_target event = Some e ->
  (parentNode e < length (windows st))%nat ->
  (length (windows st) <= 10)%nat ->
  style_zIndex <$> windows st = zIndexOf <$> zs ->
  Forall (fun z => (z < 10)%nat) zs ->
  let res := handleFocusChange event st in
  res.1 = Returned tt /\
  length (windows res.2) = length (windows st) /\
  style_zIndex <$> windows res.2 = zIndexOf <$> promote zs (parentNode e).
Proof.
  intros He Ht Hten Hzs Hdigits res.
  destruct (lookup_lt_is_Some_2 _ _ Ht) as [tw Htw].
  destruct (handleFocusChange_target st event e tw He Htw) as (Hret & _ & _ & Hlen & _).
  split; [exact Hret|]. split; [exact Hlen|].
  subst res. rewrite (handleFocusChange_window st event e tw He Htw).
  cbn [snd windows set_windows set_activeElement].
  assert (Hlenzs : length zs = length (windows st)).
  { apply (f_equal length) in Hzs. by rewrite !length_fmap in Hzs. }
  assert (Hat : forall i w, windows st !! i = Some w ->
                  exists z, zs !! i = Some z /\ style_zIndex w = zIndexOf z /\ (z < 10)%nat).
  { intros i w Hw. apply (f_equal (fun l => l !! i)) in Hzs.
    rewrite !list_lookup_fmap, Hw in Hzs. cbn in Hzs.
    destruct (zs !! i) as [z|] eqn:Hz; [|done]. injection Hzs as Hzs.
    exists z. repeat split; [done|]. eapply Forall_lookup_1 in Hdigits; eauto. }
  destruct (Hat _ _ Htw) as (c & Hc & Hcut & Hc10).
  unfold promote. rewrite Hc, Hcut. apply list_eq. intros i.
  rewrite !list_lookup_fmap.
  destruct (decide (i = parentNode e)) as [->|Hne].
  - rewrite list_lookup_alter_eq, list_lookup_insert_eq
      by (rewrite length_fmap; lia).
    rewrite list_lookup_fmap, Htw. cbn. unfold zIndexOf. do 3 f_equal. lia.
  - rewrite list_lookup_alter_ne, list_lookup_insert_ne by done.
    rewrite !list_lookup_fmap.
    destruct (windows st !! i) as [w|] eqn:Hw.
    + destruct (Hat _ _ Hw) as (z & -> & Hwz & Hz10).
      cbn [fmap option_fmap option_map].
      by rewrite (shiftDown_digit w z c Hz10 Hc10 Hwz).
    + apply lookup_ge_None in Hw.
      by rewrite (lookup_ge_None_2 zs i) by lia.
Qed.

Lemma zOrdered_values ws :
  zOrdered ws ->
  exists zs, style_zIndex <$> ws = zIndexOf <$> zs /\ zs ≡ₚ seq 0 (length zs) /\
             length zs = length ws.
Proof.
  intros Hord. apply Permutation_map_inv in Hord as (zs & Hzs & Hperm).
  assert (Hlen : length zs = length ws).
  { apply Permutation_length in Hperm. by rewrite length_seq in Hperm. }
  exists zs. rewrite Hlen. by repeat split.
Qed.

(** With at most ten windows a focus change keeps the z-order values a
    rearrangement of 0 .. N-1. *)
Lemma handleFocusChange_zOrdered_upto_ten st event e :
  event_target event = Some e ->
  (parentNode e < length (windows st))%nat ->
  (length (windows st) <= 10)%nat ->
  zOrdered (windows st) ->
  let res := handleFocusChange event st in
  res.1 = Returned tt /\
  length (windows res.2) = length (windows st) /\
  zOrdered (windows res.2).
Proof.
  intros He Ht Hten Hord res.
  destruct (zOrdered_values _ Hord) as (zs & Hzs & Hperm & Hlen).
  assert (Hdigits : Forall (fun z => (z < 10)%nat) zs).
  { apply Forall_forall. intros z Hz. rewrite Hperm in Hz.
    apply elem_of_seq in Hz. lia. }
  destruct (handleFocusChange_promote st event e zs He Ht Hten Hzs Hdigits)
    as (Hret & Hlen' & Hres).
  subst res. repeat split; [done..|]. unfold zOrdered. rewrite Hres, Hlen', <- Hlen.
  f_equiv. apply promote_Permutation; [lia | done].
Qed.

(** With at most ten windows, promoting the topmost window leaves every
    [zIndex] as it was. *)
Lemma handleFocusChange_topmost_upto_ten st event e w :
  event_target event = Some e ->
  windows st !! parentNode e = Some w ->
  style_zIndex w = zIndexOf (length (windows st) - 1) ->
  (length (windows st) <= 10)%nat ->
  zOrdered (windows st) ->
  style_zIndex <$> windows (handleFocusChange event st).2 = style_zIndex <$> windows st.
Proof.
  intros He Hw Htop Hten Hord.
  destruct (zOrdered_values _ Hord) as (zs & Hzs & Hperm & Hlen).
  assert (Hdigits : Forall (fun z => (z < 10)%nat) zs).
  { apply Forall_forall. intros z Hz. rewrite Hperm in Hz.
    apply elem_of_seq in Hz. lia. }
  assert (Ht : (parentNode e < length (windows st))%nat) by (eapply lookup_lt_Some, Hw).
  destruct (handleFocusChange_promote st event e zs He Ht Hten Hzs Hdigits)
    as (_ & _ & ->).
  rewrite Hzs. f_equal. apply promote_topmost; [done|].
  pose proof (f_equal (fun l => l !! parentNode e) Hzs) as Hz.
  cbn beta in Hz. rewrite !list_lookup_fmap, Hw in Hz. cbn in Hz.
  destruct (zs !! parentNode e) as [z|] eqn:E; [|done]. injection Hz as Hz.
  rewrite Htop in Hz. f_equal. rewrite Hlen.
  assert (Hz10 : (z < 10)%nat) by (eapply Forall_lookup_1 in Hdigits; eauto).
  (* distinct one-digit values have distinct decimal forms *)
  destruct (decide (z = length (windows st) - 1)%nat) as [->|Hne]; [done|].
  exfalso.
  assert (Hgt : JS.string_gt (zIndexOf z) (zIndexOf (length (windows st) - 1)) = false)
    by (rewrite <- Hz; apply string_gt_irrefl).
  assert (Hgt' : JS.string_gt (zIndexOf (length (windows st) - 1)) (zIndexOf z) = false)
    by (rewrite <- Hz; apply string_gt_irrefl).
  assert (Hn10 : (length (windows st) - 1 < 10)%nat) by lia.
  rewrite (proj1 (digits_agree _ _ Hz10 Hn10)) in Hgt.
  rewrite (proj1 (digits_agree _ _ Hn10 Hz10)) in Hgt'.
  apply Nat.ltb_ge in Hgt, Hgt'. lia.
Qed.

(** With at most ten windows the invariant survives every sequence of
    focus changes on mounted windows. *)
Lemma focus_changes_zOrdered_upto_ten events st :
  (length (windows st) <= 10)%nat ->
  zOrdered (windows st) ->
  Forall (fun event => exists e, event_target event = Some e /\
                                 (parentNode e < length (windows st))%nat) events ->
  zOrdered (windows (fold_left (fun st event => (handleFocusChange event st).2) events st)).
Proof.
  intros Hten Hord Hevents. revert st Hten Hord Hevents.
  induction events as [|event events IH]; intros st Hten Hord Hevents; [exact Hord|].
  apply Forall_cons in Hevents as [(e & He & Ht) Hevents]. cbn [fold_left].
  destruct (handleFocusChange_zOrdered_upto_ten st event e He Ht Hten Hord)
    as (_ & Hlen & Hord').
  apply IH; [lia | exact Hord' |]. by rewrite Hlen.
Qed.

(** Eleven windows whose [zIndex] is still unset reach the values
    0 .. 10 in mount order once each has been pressed in turn. *)
Lemma eleven_windows_reach_stacked :
  style_zIndex <$>
    windows (fold_left (fun st event => (handleFocusChange event st).2)
               (Sample.pressBody <$> seq 0 11)
               (Sample.idle (replicate 11 (Window "0px" "0px" "200px" "150px" "")))) =
  style_zIndex <$> Sample.stacked 11.
Proof. vm_compute. reflexivity. Qed.

(** C2, evaluated where the code departs from it. Eleven windows hold
    the values 0 .. 10; the window holding 9 is promoted. The window
    holding 10 is compared with the cutoff as a string ("10" against
    "9") and is not shifted down, the target takes the value 10, and the
    values are no longer a rearrangement of 0 .. 10: 10 is held twice and
    9 by no window. *)
Theorem focus_change_eleven_windows_not_zOrdered :
  let st := Sample.idle (Sample.stacked 11) in
  let res := handleFocusChange (Sample.pressBody 9) st in
  zOrdered (windows st) /\
  res.1 = Returned tt /\
  style_zIndex <$> windows res.2 =
    ["0"; "1"; "2"; "3"; "4"; "5"; "6"; "7"; "8"; "10"; "10"] /\
  ~ zOrdered (windows res.2).
Proof.
  cbv zeta. split; [|split; [|split]].
  - unfold zOrdered. by vm_compute.
  - reflexivity.
  - by vm_compute.
  - unfold zOrdered. intros Hperm.
    assert (Hin : "9" ∈ zIndexOf <$>
              seq 0 (length (windows (handleFocusChange (Sample.pressBody 9)
                                        (Sample.idle (Sample.stacked 11))).2))).
    { vm_compute. do 9 apply list_elem_of_further. apply list_elem_of_here. }
    rewrite <- Hperm in Hin. vm_compute in Hin.
    repeat (apply elem_of_cons in Hin as [Hin|Hin]; [discriminate Hin|]).
    by apply elem_of_nil in Hin.
Qed.

(** C3, evaluated. With three windows A, B, C holding 0, 1, 2, promoting
    A gives 2, 0, 1 as specified. With eleven windows holding 0 .. 10,
    promoting the window that holds 9 leaves the window that holds 10,
    which is above the cutoff, at 10 instead of 9. *)
Theorem focus_change_shift_above_cutoff :
  style_zIndex <$>
    windows (handleFocusChange (Sample.pressBody 0) (Sample.idle (Sample.stacked 3))).2 =
    ["2"; "0"; "1"] /\
  promote [0; 1; 2; 3; 4; 5; 6; 7; 8; 9; 10]%nat 9 = [0; 1; 2; 3; 4; 5; 6; 7; 8; 10; 9]%nat /\
  style_zIndex <$>
    windows (handleFocusChange (Sample.pressBody 9) (Sample.idle (Sample.stacked 11))).2
    !! 10%nat = Some "10" /\
  style_zIndex <$>
    windows (handleFocusChange (Sample.pressBody 9) (Sample.idle (Sample.stacked 11))).2 <>
  zIndexOf <$> promote [0; 1; 2; 3; 4; 5; 6; 7; 8; 9; 10]%nat 9.
Proof.
  split; [by vm_compute|]. split; [by vm_compute|]. split; [by vm_compute|].
  vm_compute. discriminate.
Qed.

(** C7, evaluated. With eleven windows holding 0 .. 10, promoting the
    topmost window (cutoff "10") shifts down the windows that hold 2 .. 9,
    whose strings compare greater than "10": the values change although
    the target was already on top. *)
Theorem focus_change_topmost_eleven_windows :
  let st := Sample.idle (Sample.stacked 11) in
  let res := handleFocusChange (Sample.pressBody 10) st in
  zOrdered (windows st) /\
  style_zIndex <$> windows st !! 10%nat = Some (zIndexOf (length (windows st) - 1)) /\
  style_zIndex <$> windows res.2 =
    ["0"; "1"; "1"; "2"; "3"; "4"; "5"; "6"; "7"; "8"; "10"] /\
  style_zIndex <$> windows res.2 <> style_zIndex <$> windows st.
Proof.
  cbv zeta. split; [|split; [|split]].
  - unfold zOrdered. by vm_compute.
  - by vm_compute.
  - by vm_compute.
  - vm_compute. discriminate.
Qed.

(** ** Numbers and their decimal strings *)

Lemma string_of_uint_nonempty d :
  d <> Decimal.Nil ->
  exists c s, NilEmpty.string_of_uint d = String c s /\ (c =? "-")%char = false.
Proof. destruct d; [done|..]; intros _; cbn; eauto. Qed.

(** Converting an integer to a string and back gives the integer. *)
Lemma ToNumber_string_of_Z z : JS.ToNumber (JS.string_of_Z z) = JS.Num z.
Proof.
  unfold JS.ToNumber, JS.string_of_Z.
  assert (Hnil : forall p, NilZero.string_of_uint (Pos.to_uint p) =
                           NilEmpty.string_of_uint (Pos.to_uint p)).
  { intros p. pose proof (Unsigned.to_uint_nonnil p). by destruct (Pos.to_uint p). }
  destruct z as [|p|p]; [reflexivity|..]; cbn [Z.to_int NilZero.string_of_int].
  - rewrite Hnil.
    destruct (string_of_uint_nonempty _ (Unsigned.to_uint_nonnil p)) as (c & s & Hs & Hc).
    assert (Hne : String.eqb (NilEmpty.string_of_uint (Pos.to_uint p)) "-" = false).
    { rewrite Hs. cbn. by rewrite Hc. }
    rewrite Hne.
    change (NilEmpty.string_of_uint (Pos.to_uint p))
      with (NilEmpty.string_of_int (Decimal.Pos (Pos.to_uint p))).
    rewrite NilEmpty.isi.
    change (Decimal.Pos (Pos.to_uint p)) with (Z.to_int (Z.pos p)).
    by rewrite DecimalZ.of_to.
  - rewrite Hnil.
    destruct (string_of_uint_nonempty _ (Unsigned.to_uint_nonnil p)) as (c & s & Hs & Hc).
    assert (Hne : String.eqb (String "-" (NilEmpty.string_of_uint (Pos.to_uint p))) "-"
                  = false).
    { rewrite Hs. reflexivity. }
    rewrite Hne.
    change (String "-" (NilEmpty.string_of_uint (Pos.to_uint p)))
      with (NilEmpty.string_of_int (Decimal.Neg (Pos.to_uint p))).
    rewrite NilEmpty.isi.
    change (Decimal.Neg (Pos.to_uint p)) with (Z.to_int (Z.neg p)).
    by rewrite DecimalZ.of_to.
Qed.

Lemma string_of_Z_inj z1 z2 : JS.string_of_Z z1 = JS.string_of_Z z2 -> z1 = z2.
Proof.
  intros H. apply (f_equal JS.ToNumber) in H.
  rewrite !ToNumber_string_of_Z in H. by injection H.
Qed.

Lemma zIndexOf_inj a b : zIndexOf a = zIndexOf b -> a = b.
Proof. intros H. apply string_of_Z_inj in H. lia. Qed.

(** Subtracting one from a set z-order value gives the decimal form of
    the predecessor. *)
Lemma zIndexOf_pred a :
  JS.ToString (JS.minus_one (JS.ToNumber (zIndexOf (S a)))) = zIndexOf a.
Proof.
  unfold zIndexOf. cbn [JS.ToString]. rewrite ToNumber_string_of_Z.
  cbn [JS.minus_one JS.ToString]. f_equal. lia.
Qed.

Lemma assign_zIndex_pred w a :
  style_zIndex (assign_zIndex w (JS.minus_one (JS.ToNumber (zIndexOf (S a))))) = zIndexOf a.
Proof.
  unfold zIndexOf. cbn [JS.ToString]. rewrite ToNumber_string_of_Z.
  cbn [JS.minus_one assign_zIndex set_zIndex style_zIndex JS.ToString]. f_equal. lia.
Qed.

(** A set z-order value compares greater than the unset one. *)
Lemma zIndexOf_gt_unset a : JS.string_gt (zIndexOf a) "" = true.
Proof.
  unfold zIndexOf, JS.ToString, JS.string_of_Z, JS.string_gt.
  destruct (Z.of_nat a) as [|p|p]; [reflexivity|..]; cbn [Z.to_int NilZero.string_of_int].
  - pose proof (Unsigned.to_uint_nonnil p) as Hp.
    destruct (string_of_uint_nonempty _ Hp) as (c & s & Hs & _).
    replace (NilZero.string_of_uint (Pos.to_uint p)) with (String c s)
      by (rewrite <- Hs; by destruct (Pos.to_uint p)).
    reflexivity.
  - reflexivity.
Qed.

(** ** The focus stack of freshly mounted windows *)

(** One press on a window whose [zIndex] is unset. *)
Lemma press_unset_lookup st t w :
  windows st !! t = Some w ->
  style_zIndex w = "" ->
  let ws' := windows (handleFocusChange (Sample.pressBody t) st).2 in
  length ws' = length (windows st) /\
  style_zIndex <$> ws' !! t = Some (zIndexOf (length (windows st) - 1)) /\
  forall i wi, i <> t -> windows st !! i = Some wi ->
    style_zIndex <$> ws' !! i = Some (style_zIndex (shiftDown "" wi)).
Proof.
  intros Hw Hunset ws'. subst ws'.
  rewrite (handleFocusChange_window st (Sample.pressBody t) (Sample.bodyElement t) w)
    by done.
  cbn [Sample.bodyElement parentNode]. rewrite Hunset.
  cbn [snd windows set_windows set_activeElement].
  split; [by rewrite length_alter, length_fmap|]. split.
  - rewrite list_lookup_alter_eq, list_lookup_fmap, Hw. cbn.
    unfold zIndexOf. do 3 f_equal.
    apply lookup_lt_Some in Hw. lia.
  - intros i wi Hne Hwi.
    by rewrite list_lookup_alter_ne, list_lookup_fmap, Hwi.
Qed.

Lemma pressAll_snoc targets t st :
  pressAll (targets ++ [t]) st =
  (handleFocusChange (Sample.pressBody t) (pressAll targets st)).2.
Proof. unfold pressAll. by rewrite fold_left_app. Qed.

Lemma NoDup_below_length (targets : list nat) n :
  NoDup targets -> Forall (fun t => (t < n)%nat) targets -> (length targets <= n)%nat.
Proof.
  intros Hnd Hlt. replace n with (length (seq 0 n)) at 1 by apply length_seq.
  apply submseteq_length.
  apply NoDup_submseteq; [done|]. intros t Ht. apply elem_of_seq.
  rewrite Forall_forall in Hlt. specialize (Hlt t Ht). lia.
Qed.

(** Presses on distinct windows, starting from unset values. *)
Lemma pressAll_fresh_lookup st targets :
  Forall (fun w => style_zIndex w = "") (windows st) ->
  NoDup targets ->
  Forall (fun t => (t < length (windows st))%nat) targets ->
  let st' := pressAll targets st in
  length (windows st') = length (windows st) /\
  (forall j t, targets !! j = Some t ->
     style_zIndex <$> windows st' !! t =
     Some (zIndexOf (length (windows st) - length targets + j))) /\
  (forall i, (i < length (windows st))%nat -> i ∉ targets ->
     style_zIndex <$> windows st' !! i = Some "").
Proof.
  intros Hfresh. induction targets as [|t targets IH] using rev_ind; intros Hnd Hlt st'.
  - subst st'. cbn. split; [done|]. split; [done|].
    intros i Hi _. destruct (lookup_lt_is_Some_2 _ _ Hi) as [w Hw]. rewrite Hw. cbn.
    f_equal. eapply Forall_lookup_1 in Hfresh; eauto.
  - pose proof (NoDup_below_length _ _ Hnd Hlt) as Hlen. rewrite length_app in Hlen.
    cbn in Hlen.
    apply NoDup_app in Hnd as (Hnd & Hnotin & _).
    apply Forall_app in Hlt as [Hlt Ht]. rewrite Forall_singleton in Ht.
    destruct (IH Hnd Hlt) as (IHlen & IHpressed & IHunset). clear IH.
    assert (Htfresh : t ∉ targets)
      by (intros Hin; apply (Hnotin t Hin), list_elem_of_here).
    subst st'. rewrite pressAll_snoc. set (st1 := pressAll targets st) in *.
    pose proof (IHunset t Ht Htfresh) as Hunset.
    destruct (windows st1 !! t) as [w|] eqn:Hw; [|done].
    injection Hunset as Hunset.
    destruct (press_unset_lookup st1 t w Hw Hunset) as (Hlen' & Htop & Hother).
    rewrite IHlen in Hlen', Htop. split; [exact Hlen'|]. split.
    + intros j p Hj. rewrite length_app. cbn [length].
      destruct (decide (j = length targets)) as [->|Hne].
      * rewrite lookup_app_r, Nat.sub_diag in Hj by done. injection Hj as <-.
        rewrite Htop. do 2 f_equal. lia.
      * assert (Hj' : targets !! j = Some p).
        { apply lookup_lt_Some in Hj as Hjlt. rewrite length_app in Hjlt. cbn in Hjlt.
          by rewrite lookup_app_l in Hj by lia. }
        assert (Hpt : p <> t) by (intros ->; apply Htfresh; eapply list_elem_of_lookup_2, Hj').
        pose proof (IHpressed j p Hj') as Hz.
        destruct (windows st1 !! p) as [wp|] eqn:Hwp; [|done].
        injection Hz as Hz.
        rewrite (Hother p wp Hpt Hwp). f_equal. unfold shiftDown. rewrite Hz.
        rewrite zIndexOf_gt_unset.
        apply lookup_lt_Some in Hj'.
        replace (length (windows st) - length targets + j)%nat
          with (S (length (windows st) - (length targets + 1) + j)) by lia.
        apply assign_zIndex_pred.
    + intros i Hi Hnot.
      assert (Hit : i <> t)
        by (intros ->; apply Hnot, elem_of_app; right; apply list_elem_of_here).
      assert (Hin : i ∉ targets) by (intros Hin; apply Hnot, elem_of_app; by left).
      pose proof (IHunset i Hi Hin) as Hz.
      destruct (windows st1 !! i) as [wi|] eqn:Hwi; [|done].
      injection Hz as Hz.
      rewrite (Hother i wi Hit Hwi). f_equal. unfold shiftDown.
      by rewrite Hz, string_gt_irrefl.
Qed.

(** Freshly mounted windows carry no [zIndex]. After presses on distinct
    windows, the pressed windows hold the top values in the order of the
    presses and the others are still unset; once every window has been
    pressed the values are a rearrangement of 0 .. N-1. This holds for
    every number of windows. *)
Theorem pressAll_fresh_stacks st targets :
  Forall (fun w => style_zIndex w = "") (windows st) ->
  NoDup targets ->
  Forall (fun t => (t < length (windows st))%nat) targets ->
  let st' := pressAll targets st in
  (forall j t, targets !! j = Some t ->
     style_zIndex <$> windows st' !! t =
     Some (zIndexOf (length (windows st) - length targets + j))) /\
  (forall i, (i < length (windows st))%nat -> i ∉ targets ->
     style_zIndex <$> windows st' !! i = Some "") /\
  (targets ≡ₚ seq 0 (length (windows st)) -> zOrdered (windows st')).
Proof.
  intros Hfresh Hnd Hlt st'.
  destruct (pressAll_fresh_lookup st targets Hfresh Hnd Hlt) as (Hlen & Hpressed & Hunset).
  fold st' in Hlen, Hpressed, Hunset. split; [exact Hpressed|]. split; [exact Hunset|].
  intros Hall. unfold zOrdered. rewrite Hlen.
  set (n := length (windows st)) in *. set (l := style_zIndex <$> windows st').
  assert (Hn : length targets = n).
  { apply Permutation_length in Hall. by rewrite length_seq in Hall. }
  assert (Hl : length l = n) by (unfold l; by rewrite length_fmap).
  assert (Hseq : l = (fun i => l !!! i) <$> seq 0 n).
  { apply list_eq. intros i. rewrite list_lookup_fmap.
    destruct (decide (i < n)%nat) as [Hi|Hi].
    - rewrite lookup_seq_lt by done. cbn.
      assert (Hil : (i < length l)%nat) by lia.
      destruct (lookup_lt_is_Some_2 l i Hil) as [x Hx].
      by rewrite Hx, (list_lookup_total_correct _ _ _ Hx).
    - rewrite lookup_seq_ge, lookup_ge_None_2 by lia. done. }
  assert (Htargets : (fun i => l !!! i) <$> targets = zIndexOf <$> seq 0 n).
  { apply list_eq. intros j. rewrite !list_lookup_fmap.
    destruct (decide (j < n)%nat) as [Hj|Hj].
    - assert (Hjl : (j < length targets)%nat) by lia.
      destruct (lookup_lt_is_Some_2 targets j Hjl) as [t Ht].
      rewrite Ht, lookup_seq_lt by done. cbn. f_equal.
      specialize (Hpressed j t Ht). rewrite <- list_lookup_fmap in Hpressed.
      fold l in Hpressed. rewrite (list_lookup_total_correct _ _ _ Hpressed).
      by rewrite Hn, Nat.sub_diag.
    - by rewrite lookup_seq_ge, lookup_ge_None_2 by lia. }
  rewrite Hseq at 1. rewrite <- Htargets. by rewrite Hall.
Qed.

(** Three fresh windows pressed in the order 2, 0, 1. *)
Lemma pressAll_fresh_stacks_three :
  style_zIndex <$> windows (pressAll [2; 0; 1]%nat (Sample.idle (MoreSamples.fresh 3))) =
    ["1"; "2"; "0"] /\
  zOrdered (windows (pressAll [2; 0; 1]%nat (Sample.idle (MoreSamples.fresh 3)))).
Proof.
  split; [by vm_compute|].
  assert (Hfresh : Forall (fun w => style_zIndex w = "")
                     (windows (Sample.idle (MoreSamples.fresh 3))))
    by (repeat constructor).
  assert (Hnd : NoDup [2; 0; 1]%nat) by (by apply (bool_decide_unpack _)).
  assert (Hlt : Forall (fun t => (t < length (windows (Sample.idle (MoreSamples.fresh 3))))%nat)
                  [2; 0; 1]%nat)
    by (repeat constructor; cbn; lia).
  destruct (pressAll_fresh_stacks (Sample.idle (MoreSamples.fresh 3)) [2; 0; 1]%nat
              Hfresh Hnd Hlt) as (_ & _ & Hall).
  apply Hall. cbn. by apply (bool_decide_unpack _).
Defined.

(** ** What each handler can change *)

Lemma Forall2_insert_same {A} (P : A -> A -> Prop) (l : list A) i x y :
  (forall a, P a a) -> l !! i = Some x -> P x y -> Forall2 P l (<[i := y]> l).
Proof.
  intros Hrefl Hx Hxy. rewrite <- (list_insert_id l i x Hx) at 1.
  apply Forall2_insert; [|done]. by apply Forall_Forall2_diag, Forall_true.
Qed.

Lemma sameRect_refl ws : Forall2 sameRect ws ws.
Proof. apply Forall_Forall2_diag, Forall_true. by intros w. Qed.

Lemma sameZIndex_refl ws : Forall2 sameZIndex ws ws.
Proof. by apply Forall_Forall2_diag, Forall_true. Qed.

(** A write to one element, seen from the mounted windows: the element is
    one of them and takes the new style, or it is another element and
    the windows stay. *)
Lemma set_node_effect (P : window -> window -> Prop) st i w w' :
  (forall a, P a a) -> node st i = Some w -> P w w' ->
  exists ws' os', set_node st i w' = set_others (set_windows st ws') os' /\
                  Forall2 P (windows st) ws'.
Proof.
  intros Hrefl Hw HP. unfold set_node, node in *.
  destruct (Nat.ltb_spec i (length (windows st))) as [Hlt|Hge].
  - rewrite lookup_app_l in Hw by done.
    exists (<[i := w']> (windows st)), (others st). split; [by destruct st|].
    by apply (Forall2_insert_same _ _ _ w).
  - exists (windows st), (<[(i - length (windows st))%nat := w']> (others st)).
    split; [by destruct st|]. by apply Forall_Forall2_diag, Forall_true.
Qed.

Lemma moveElement_effect i x y st :
  exists ws' os',
    moveElement i x y st = (Returned tt, set_others (set_windows st ws') os') /\
    Forall2 sameZIndex (windows st) ws'.
Proof.
  unfold moveElement. destruct (node st i) as [w|] eqn:Hw.
  - match goal with
    | |- context [set_node st i ?w'] =>
        assert (HP : sameZIndex w w') by (by destruct (JS.truthy x), (JS.truthy y));
        destruct (set_node_effect sameZIndex st i w w' (fun a => eq_refl) Hw HP)
          as (ws' & os' & -> & Hws)
    end.
    by exists ws', os'.
  - exists (windows st), (others st). split; [by destruct st | apply sameZIndex_refl].
Qed.

Lemma resizeElement_effect i width height st :
  exists ws' os',
    resizeElement i width height st = (Returned tt, set_others (set_windows st ws') os') /\
    Forall2 sameZIndex (windows st) ws'.
Proof.
  unfold resizeElement. destruct (node st i) as [w|] eqn:Hw.
  - match goal with
    | |- context [set_node st i ?w'] =>
        assert (HP : sameZIndex w w')
          by (unfold assign_width, assign_height;
              by destruct (JS.truthy width), (JS.truthy height),
                   (width <? 0), (height <? 0));
        destruct (set_node_effect sameZIndex st i w w' (fun a => eq_refl) Hw HP)
          as (ws' & os' & -> & Hws)
    end.
    by exists ws', os'.
  - exists (windows st), (others st). split; [by destruct st | apply sameZIndex_refl].
Qed.

Lemma sameZIndex_trans ws1 ws2 ws3 :
  Forall2 sameZIndex ws1 ws2 -> Forall2 sameZIndex ws2 ws3 -> Forall2 sameZIndex ws1 ws3.
Proof.
  intros H12. revert ws3.
  induction H12 as [|a b l k Hab _ IH]; intros ws3 H23; inversion H23; subst;
    constructor; [unfold sameZIndex in *; congruence | by apply IH].
Qed.

Lemma move_resize_effect i x y width height st :
  exists ws' os',
    (moveElement i x y;; resizeElement i width height) st =
      (Returned tt, set_others (set_windows st ws') os') /\
    Forall2 sameZIndex (windows st) ws'.
Proof.
  rewrite hbind_run.
  destruct (moveElement_effect i x y st) as (ws1 & os1 & -> & H1).
  destruct (resizeElement_effect i width height (set_others (set_windows st ws1) os1))
    as (ws2 & os2 & -> & H2).
  exists ws2, os2. split; [reflexivity|]. eapply sameZIndex_trans; eauto.
Qed.

(** [handleMouseMove] can change nothing but the rectangles: the session,
    the focus, the number of windows and every [zIndex] stay; it throws
    exactly when a session is active and the position cannot be read, and
    then it has written nothing. *)
Lemma handleMouseMove_effect minWidth minHeight bodyMargin event pd st :
  exists o ws' os',
    handleMouseMove minWidth minHeight bodyMargin event pd st =
      (o, Document ws' (dragState st) (activeElement st)
            (if pd then S (prevented st) else prevented st) os') /\
    Forall2 sameZIndex (windows st) ws' /\
    o = match dragState st with
        | None => Returned tt
        | Some _ =>
            match getEventPosition event with
            | Returned _ => Returned tt
            | Thrown e => Thrown e
            end
        end /\
    (o <> Returned tt -> ws' = windows st /\ os' = others st).
Proof.
  assert (Hrefl : Forall2 sameZIndex (windows st) (windows st))
    by apply sameZIndex_refl.
  unfold handleMouseMove. rewrite hbind_run, preventDefaultIf_run, hbind_run.
  set (st1 := set_prevented st _). cbn [gets].
  change (dragState st1) with (dragState st).
  destruct (dragState st) as [s|] eqn:Hs.
  2:{ exists (Returned tt), (windows st), (others st). by rewrite <- Hs. }
  rewrite hbind_run. unfold lift at 1.
  destruct (getEventPosition event) as [[x y]|ex].
  2:{ exists (Thrown ex), (windows st), (others st). by rewrite <- Hs. }
  repeat match goal with
  | |- context [if JS.contains ?c ?n then _ else _] => destruct (JS.contains c n)
  end;
  first
    [ match goal with
      | |- context [(moveElement ?i ?a ?b;; resizeElement ?i ?c ?d) st1] =>
          destruct (move_resize_effect i a b c d st1) as (ws' & os' & -> & Hws)
      | |- context [moveElement ?i ?a ?b st1] =>
          destruct (moveElement_effect i a b st1) as (ws' & os' & -> & Hws)
      | |- context [resizeElement ?i ?a ?b st1] =>
          destruct (resizeElement_effect i a b st1) as (ws' & os' & -> & Hws)
      end; exists (Returned tt), ws', os'; rewrite <- Hs; by repeat split
    | exists (Returned tt), (windows st), (others st); rewrite <- Hs; by repeat split ].
Qed.

Lemma sameRect_trans ws1 ws2 ws3 :
  Forall2 sameRect ws1 ws2 -> Forall2 sameRect ws2 ws3 -> Forall2 sameRect ws1 ws3.
Proof.
  intros H12. revert ws3.
  induction H12 as [|a b l k Hab _ IH]; intros ws3 H23; inversion H23 as [|? c ? ? Hbc]; subst;
    constructor; [|by apply IH].
  destruct Hab as (? & ? & ? & ?), Hbc as (? & ? & ? & ?).
  unfold sameRect. repeat split; congruence.
Qed.

Lemma shiftDown_sameRect cutoffIndex w : sameRect w (shiftDown cutoffIndex w).
Proof.
  unfold shiftDown, assign_zIndex.
  destruct (JS.string_gt _ _); [|done]. by destruct (JS.minus_one _).
Qed.

(** [handleFocusChange] can change nothing but the [zIndex] values and
    the focus. *)
Lemma handleFocusChange_effect event st :
  exists o ws' f os',
    handleFocusChange event st = (o, Document ws' (dragState st) f (prevented st) os') /\
    Forall2 sameRect (windows st) ws'.
Proof.
  unfold handleFocusChange.
  destruct (event_target event) as [e|].
  2:{ exists (Thrown TypeError), (windows st), (activeElement st), (others st).
      split; [by destruct st | apply sameRect_refl]. }
  destruct (node st (parentNode e)) as [tw|] eqn:Htw.
  2:{ exists (Thrown TypeError), (windows st), (activeElement st), (others st).
      split; [by destruct st | apply sameRect_refl]. }
  cbv zeta. unfold alter_node. cbn [windows set_windows others].
  destruct (_ <? _)%nat.
  - eexists _, _, _, _. split; [reflexivity|]. cbn [windows set_windows].
    apply Forall2_same_length_lookup_2; [by rewrite length_alter, length_fmap|].
    intros i w w' Hw Hw'.
    destruct (decide (i = parentNode e)) as [->|Hne].
    + rewrite list_lookup_alter_eq, list_lookup_fmap, Hw in Hw'.
      injection Hw' as <-. apply shiftDown_sameRect.
    + rewrite list_lookup_alter_ne, list_lookup_fmap, Hw in Hw' by done.
      injection Hw' as <-. apply shiftDown_sameRect.
  - eexists _, _, _, _. split; [reflexivity|]. cbn [windows set_windows set_others].
    apply Forall2_fmap_r, Forall_Forall2_diag, Forall_true. intros w.
    apply shiftDown_sameRect.
Qed.

(** [handleMouseDown] can change the [zIndex] values, the focus and the
    session, never a rectangle; a session it stores is on the pressed
    element, which is a drag handle. *)
Lemma handleMouseDown_effect getBoundingClientRect event pd st :
  exists o ws' d f os',
    handleMouseDown getBoundingClientRect event pd st =
      (o, Document ws' d f (if pd then S (prevented st) else prevented st) os') /\
    Forall2 sameRect (windows st) ws' /\
    (d = dragState st \/
     exists e x y r,
       event_target event = Some e /\ isDragElement (Some e) = true /\
       getEventPosition event = Returned (x, y) /\
       d = Some (Drag e x y (rect_top r) (rect_left r) (rect_width r) (rect_height r))).
Proof.
  unfold handleMouseDown. rewrite hbind_run, preventDefaultIf_run, hbind_run.
  set (n := if pd then _ else _). set (st1 := set_prevented st n).
  assert (Hfocus : exists o ws' f os',
            (if isFocusableElement (event_target event)
             then handleFocusChange event
             else modify (fun st => set_activeElement st FocusDesktop)) st1 =
              (o, Document ws' (dragState st) f n os') /\
            Forall2 sameRect (windows st) ws').
  { destruct (isFocusableElement _).
    - apply (handleFocusChange_effect event st1).
    - exists (Returned tt), (windows st), FocusDesktop, (others st).
      split; [done | apply sameRect_refl]. }
  destruct Hfocus as (o & ws' & f & os' & -> & Hrect).
  destruct o as [[]|ex].
  2:{ exists (Thrown ex), ws', (dragState st), f, os'. repeat split; [done | by left]. }
  destruct (event_target event) as [e|] eqn:He.
  2:{ exists (Returned tt), ws', (dragState st), f, os'. repeat split; [done | by left]. }
  destruct (isDragElement (Some e)) eqn:Hd.
  2:{ exists (Returned tt), ws', (dragState st), f, os'. repeat split; [done | by left]. }
  rewrite hbind_run. unfold lift at 1.
  destruct (getEventPosition event) as [[x y]|ex] eqn:Hpos.
  2:{ exists (Thrown ex), ws', (dragState st), f, os'. repeat split; [done | by left]. }
  rewrite hbind_run. cbn [gets].
  destruct (node _ (parentNode e)) as [w|] eqn:Hw.
  2:{ exists (Thrown TypeError), ws', (dragState st), f, os'.
      repeat split; [done | by left]. }
  eexists _, ws', _, f, os'. split; [reflexivity|]. split; [done|]. right.
  by exists e, x, y, (getBoundingClientRect w).
Qed.

Lemma handleMouseUp_run event pd st :
  handleMouseUp event pd st =
  (Returned tt,
   Document (windows st) None (activeElement st)
     (if pd then S (prevented st) else prevented st) (others st)).
Proof.
  unfold handleMouseUp. rewrite hbind_run, preventDefaultIf_run, hbind_run. cbn [gets].
  by destruct st as [ws [d|] f n os].
Qed.


(** ** Event streams on the desktop surface *)

(** What the rendered desktop does with a pointer event. *)
Lemma deliver_Desktop minWidth minHeight bodyMargin getBoundingClientRect
    children width height p event st :
  deliver (Desktop minWidth minHeight bodyMargin getBoundingClientRect children width height)
    p event st =
  if (width >=? requiredViewportWidth) && (height >=? requiredViewportHeight)
  then match p with
       | TouchStart => handleMouseDown getBoundingClientRect event false st
       | TouchEnd => handleMouseUp event false st
       | TouchMove => handleMouseMove minWidth minHeight bodyMargin event false st
       | MouseDown => handleMouseDown getBoundingClientRect event true st
       | MouseUp => handleMouseUp event true st
       | MouseMove => handleMouseMove minWidth minHeight bodyMargin event true st
       end
  else (Returned tt, st).
Proof. unfold Desktop. destruct (_ && _); [by destruct p | done]. Qed.

Lemma run_cons v pe stream st :
  run v (pe :: stream) st = run v stream (deliver v pe.1 pe.2 st).2.
Proof. reflexivity. Qed.




Lemma deliver_keeps_zIndex minWidth minHeight bodyMargin getBoundingClientRect
    children width height p event st :
  isDown p = false ->
  let st' := (deliver (Desktop minWidth minHeight bodyMargin getBoundingClientRect
                         children width height) p event st).2 in
  Forall2 sameZIndex (windows st) (windows st') /\ activeElement st' = activeElement st.
Proof.
  intros Hp st'. subst st'. rewrite deliver_Desktop.
  destruct (_ && _); [|split; [apply sameZIndex_refl | done]].
  destruct p; try discriminate Hp;
    first
      [ rewrite handleMouseUp_run; split; [apply sameZIndex_refl | done]
      | destruct (handleMouseMove_effect minWidth minHeight bodyMargin event false st)
          as (o & ws' & os' & -> & Hz & _ & _); by split
      | destruct (handleMouseMove_effect minWidth minHeight bodyMargin event true st)
          as (o & ws' & os' & -> & Hz & _ & _); by split ].
Qed.

(** Pointer moves and releases never change the stacking or the focus:
    along a stream without a press every window keeps its [zIndex] and
    the focused element stays. *)
Theorem run_without_press_keeps_zIndex minWidth minHeight bodyMargin getBoundingClientRect
    children width height stream st :
  Forall (fun pe => isDown pe.1 = false) stream ->
  let st' := run (Desktop minWidth minHeight bodyMargin getBoundingClientRect
                    children width height) stream st in
  Forall2 sameZIndex (windows st) (windows st') /\ activeElement st' = activeElement st.
Proof.
  intros Hstream. revert st.
  induction Hstream as [|[p event] stream Hp _ IH]; intros st st'.
  - split; [apply sameZIndex_refl | done].
  - subst st'. rewrite run_cons. cbn [fst snd] in *.
    destruct (deliver_keeps_zIndex minWidth minHeight bodyMargin getBoundingClientRect
                children width height p event st Hp) as (Hz & Hf).
    destruct (IH (deliver (Desktop minWidth minHeight bodyMargin getBoundingClientRect
                             children width height) p event st).2) as (Hz' & Hf').
    split; [eapply sameZIndex_trans; eauto | congruence].
Qed.

(** A west resize in progress: two moves and the release. *)
Lemma run_without_press_keeps_zIndex_west :
  style_zIndex <$>
    windows (run (Desktop 50 40 8 (Sample.fixedRect (Rect 10 40 100 120)) [] 1024 768)
               [(MouseMove, Sample.mouse "mousemove" None 30 60);
                (MouseMove, Sample.mouse "mousemove" None 20 60);
                (MouseUp, Sample.mouse "mouseup" None 20 60)]
               MoreSamples.westState) = ["0"].
Proof.
  destruct (run_without_press_keeps_zIndex 50 40 8 (Sample.fixedRect (Rect 10 40 100 120))
              [] 1024 768
              [(MouseMove, Sample.mouse "mousemove" None 30 60);
               (MouseMove, Sample.mouse "mousemove" None 20 60);
               (MouseUp, Sample.mouse "mouseup" None 20 60)]
              MoreSamples.westState ltac:(repeat constructor)) as (Hz & _).
  apply Forall2_cons_inv_l in Hz as (w' & l' & Hw & Hnil & ->).
  apply Forall2_nil_inv_l in Hnil as ->. cbn. f_equal. exact Hw.
Defined.

Lemma deliver_keeps_rect minWidth minHeight bodyMargin getBoundingClientRect
    children width height p event st :
  p <> MouseMove -> p <> TouchMove ->
  let st' := (deliver (Desktop minWidth minHeight bodyMargin getBoundingClientRect
                         children width height) p event st).2 in
  Forall2 sameRect (windows st) (windows st').
Proof.
  intros Hm Ht st'. subst st'. rewrite deliver_Desktop.
  destruct (_ && _); [|apply sameRect_refl].
  destruct p; try done;
    first
      [ rewrite handleMouseUp_run; apply sameRect_refl
      | destruct (handleMouseDown_effect getBoundingClientRect event false st)
          as (o & ws' & d & f & os' & -> & Hrect & _); exact Hrect
      | destruct (handleMouseDown_effect getBoundingClientRect event true st)
          as (o & ws' & d & f & os' & -> & Hrect & _); exact Hrect ].
Qed.

(** Presses and releases never move or resize a window: along a stream
    without a pointer move every window keeps its rectangle. *)
Theorem run_without_move_keeps_rect minWidth minHeight bodyMargin getBoundingClientRect
    children width height stream st :
  Forall (fun pe => pe.1 <> MouseMove /\ pe.1 <> TouchMove) stream ->
  Forall2 sameRect (windows st)
    (windows (run (Desktop minWidth minHeight bodyMargin getBoundingClientRect
                     children width height) stream st)).
Proof.
  intros Hstream. revert st.
  induction Hstream as [|[p event] stream [Hm Ht] _ IH]; intros st.
  - apply sameRect_refl.
  - rewrite run_cons. cbn [fst snd] in *.
    eapply sameRect_trans; [|apply IH].
    by apply deliver_keeps_rect.
Qed.

(** Presses on the title bar of the second window and on the body of the
    first, and a release. *)
Lemma run_without_move_keeps_rect_presses :
  Forall2 sameRect (windows Sample.staleState)
    (windows (run (Desktop 50 40 8 (Sample.fixedRect (Rect 20 300 200 150)) [] 1024 768)
                [(MouseDown, Sample.mouse "mousedown" (Some (Sample.handleElement move 1)) 350 25);
                 (TouchStart, Sample.touchEvent "touchstart" (Some (Sample.bodyElement 0))
                                [Touch 30 60]);
                 (MouseUp, Sample.mouse "mouseup" None 30 60)]
                Sample.staleState)).
Proof.
  apply run_without_move_keeps_rect. repeat constructor; discriminate.
Defined.

Lemma deliver_idle minWidth minHeight bodyMargin getBoundingClientRect
    children width height p event st :
  dragState st = None ->
  (isDown p = true -> isDragElement (event_target event) = false) ->
  let st' := (deliver (Desktop minWidth minHeight bodyMargin getBoundingClientRect
                         children width height) p event st).2 in
  dragState st' = None /\ Forall2 sameRect (windows st) (windows st').
Proof.
  intros Hs Hp st'. subst st'. rewrite deliver_Desktop.
  destruct (_ && _); [|split; [done | apply sameRect_refl]].
  destruct p; cbn [isDown] in Hp;
    first
      [ rewrite handleMouseUp_run; split; [done | apply sameRect_refl]
      | rewrite handleMouseMove_idle_run by done; split; [done | apply sameRect_refl]
      | split;
        [ by rewrite handleMouseDown_no_handle by auto
        | apply (deliver_keeps_rect minWidth minHeight bodyMargin getBoundingClientRect
                   children 800 600 TouchStart event st); done ]
      | split;
        [ by rewrite handleMouseDown_no_handle by auto
        | apply (deliver_keeps_rect minWidth minHeight bodyMargin getBoundingClientRect
                   children 800 600 MouseDown event st); done ] ].
Qed.

(** From the moment no session is active until the next press on a drag
    handle, no rectangle changes, whatever moves, releases and presses
    elsewhere arrive, and no session starts. *)
Theorem run_idle_keeps_rect minWidth minHeight bodyMargin getBoundingClientRect
    children width height stream st :
  dragState st = None ->
  Forall (fun pe => isDown pe.1 = true -> isDragElement (event_target pe.2) = false) stream ->
  let st' := run (Desktop minWidth minHeight bodyMargin getBoundingClientRect
                    children width height) stream st in
  dragState st' = None /\ Forall2 sameRect (windows st) (windows st').
Proof.
  intros Hs Hstream. revert st Hs.
  induction Hstream as [|[p event] stream Hp _ IH]; intros st Hs st'.
  - split; [done | apply sameRect_refl].
  - subst st'. rewrite run_cons. cbn [fst snd] in *.
    destruct (deliver_idle minWidth minHeight bodyMargin getBoundingClientRect
                children width height p event st Hs Hp) as (Hs1 & Hrect).
    destruct (IH _ Hs1) as (Hs2 & Hrect').
    split; [done | eapply sameRect_trans; eauto].
Qed.

(** Stray moves, a press on a body and a release on two idle windows. *)
Lemma run_idle_keeps_rect_stray :
  dragState (run (Desktop 50 40 8 (Sample.fixedRect (Rect 20 300 200 150)) [] 1024 768)
               MoreSamples.strayStream (Sample.idle (Sample.stacked 2))) = None /\
  Forall2 sameRect (Sample.stacked 2)
    (windows (run (Desktop 50 40 8 (Sample.fixedRect (Rect 20 300 200 150)) [] 1024 768)
                MoreSamples.strayStream (Sample.idle (Sample.stacked 2)))).
Proof.
  apply (run_idle_keeps_rect 50 40 8 (Sample.fixedRect (Rect 20 300 200 150)) [] 1024 768
           MoreSamples.strayStream (Sample.idle (Sample.stacked 2)) eq_refl).
  repeat constructor; cbn; done.
Defined.

Lemma deliver_prevented minWidth minHeight bodyMargin getBoundingClientRect
    children width height p event st :
  requiredViewportWidth <= width -> requiredViewportHeight <= height ->
  prevented (deliver (Desktop minWidth minHeight bodyMargin getBoundingClientRect
                        children width height) p event st).2 =
  (if isMouse p then S (prevented st) else prevented st).
Proof.
  intros Hw Hh. rewrite deliver_Desktop.
  replace ((width >=? requiredViewportWidth) && (height >=? requiredViewportHeight))
    with true by (symmetry; apply andb_true_intro; rewrite !Z.geb_leb, !Z.leb_le; lia).
  destruct p; cbn [isMouse];
    first
      [ rewrite handleMouseUp_run; reflexivity
      | destruct (handleMouseDown_effect getBoundingClientRect event false st)
          as (o & ws' & d & f & os' & -> & _); reflexivity
      | destruct (handleMouseDown_effect getBoundingClientRect event true st)
          as (o & ws' & d & f & os' & -> & _); reflexivity
      | destruct (handleMouseMove_effect minWidth minHeight bodyMargin event false st)
          as (o & ws' & os' & -> & _); reflexivity
      | destruct (handleMouseMove_effect minWidth minHeight bodyMargin event true st)
          as (o & ws' & os' & -> & _); reflexivity ].
Qed.

(** On the rendered desktop the default action is suppressed once for
    every mouse event and never for a touch event, whatever the handler
    does afterwards (also when it throws). *)
Theorem run_prevented minWidth minHeight bodyMargin getBoundingClientRect
    children width height stream st :
  requiredViewportWidth <= width -> requiredViewportHeight <= height ->
  prevented (run (Desktop minWidth minHeight bodyMargin getBoundingClientRect
                    children width height) stream st) =
  (prevented st + length (List.filter (fun pe => isMouse pe.1) stream))%nat.
Proof.
  intros Hw Hh. revert st. induction stream as [|[p event] stream IH]; intros st.
  - cbn. lia.
  - rewrite run_cons, IH. cbn [fst snd List.filter].
    rewrite (deliver_prevented _ _ _ _ _ _ _ _ _ _ Hw Hh).
    destruct (isMouse p); cbn [length]; lia.
Qed.

(** Two mouse events and one touch event, one of which throws. *)
Lemma run_prevented_mixed :
  prevented (run (Desktop 50 40 8 (Sample.fixedRect (Rect 10 40 100 120)) [] 1024 768)
               [(MouseMove, Sample.mouse "mousemove" None 30 60);
                (TouchMove, Sample.touchEvent "touchmove" None []);
                (MouseUp, Sample.mouse "mouseup" None 30 60)]
               MoreSamples.westState) = 2%nat.
Proof.
  rewrite (run_prevented 50 40 8 (Sample.fixedRect (Rect 10 40 100 120)) [] 1024 768);
    [reflexivity | discriminate | discriminate].
Defined.

Lemma getEventPosition_outcome event :
  (exists p, getEventPosition event = Returned p) \/
  (getEventPosition event = Thrown TypeError /\
   String.prefix "touch" (event_type event) = true /\ event_touches event = []).
Proof.
  unfold getEventPosition. destruct (String.prefix _ _); [|eauto].
  destruct (event_touches event) as [|t ts]; cbn; eauto.
Qed.

(** [handleMouseMove] either returns or throws a TypeError; it throws
    exactly when a session is active and the event is a touch event
    without touch points, and then no window and no session is changed. *)
Theorem handleMouseMove_throws_iff minWidth minHeight bodyMargin event pd st :
  let res := handleMouseMove minWidth minHeight bodyMargin event pd st in
  (res.1 = Returned tt \/ res.1 = Thrown TypeError) /\
  (res.1 = Thrown TypeError <->
   is_Some (dragState st) /\ String.prefix "touch" (event_type event) = true /\
   event_touches event = []) /\
  (res.1 = Thrown TypeError ->
   windows res.2 = windows st /\ dragState res.2 = dragState st).
Proof.
  intros res. subst res.
  destruct (handleMouseMove_effect minWidth minHeight bodyMargin event pd st)
    as (o & ws' & os' & -> & _ & Ho & Hthrown). cbn [fst snd windows dragState].
  destruct (dragState st) as [s|] eqn:Hs.
  - destruct (getEventPosition_outcome event) as [[p Hp] | (Hp & Htouch & Hnil)];
      rewrite Hp in Ho; subst o.
    + split; [by left|]. split; [|done]. split; [done|].
      intros (_ & Htouch & Hnil). unfold getEventPosition in Hp.
      by rewrite Htouch, Hnil in Hp.
    + split; [by right|]. split; [by eauto|].
      intros _. split; [by apply Hthrown | done].
  - subst o. split; [by left|]. split; [|done].
    split; [done|]. by intros ([s Hsome] & _).
Qed.

(** A touch move without touch points during the west resize, and a
    mouse move in the same state. *)
Lemma handleMouseMove_throws_iff_west :
  (handleMouseMove 50 40 8 (Sample.touchEvent "touchmove" None []) false
     MoreSamples.westState).1 = Thrown TypeError /\
  windows (handleMouseMove 50 40 8 (Sample.touchEvent "touchmove" None []) false
             MoreSamples.westState).2 = windows MoreSamples.westState /\
  (handleMouseMove 50 40 8 (Sample.mouse "mousemove" None 30 60) true
     MoreSamples.westState).1 = Returned tt.
Proof.
  destruct (handleMouseMove_throws_iff 50 40 8 (Sample.touchEvent "touchmove" None []) false
              MoreSamples.westState) as (_ & Hiff & Hkeep).
  assert (Hthrown : (handleMouseMove 50 40 8 (Sample.touchEvent "touchmove" None []) false
                       MoreSamples.westState).1 = Thrown TypeError).
  { apply Hiff. split; [by eexists | by split]. }
  split; [exact Hthrown|]. split; [exact (proj1 (Hkeep Hthrown))|].
  destruct (handleMouseMove_throws_iff 50 40 8 (Sample.mouse "mousemove" None 30 60) true
              MoreSamples.westState) as ([Hret | Hthrow] & Hiff' & _); [exact Hret|].
  apply Hiff' in Hthrow as (_ & Htouch & _). discriminate Htouch.
Defined.

(** A press anywhere but on a window's handles or body (the desktop
    surface, the text of a title, an icon, no target at all) gives the
    focus to the desktop and changes neither a window nor the session;
    the position of the event is not read. *)
Theorem handleMouseDown_elsewhere getBoundingClientRect event pd st :
  isFocusableElement (event_target event) = false ->
  handleMouseDown getBoundingClientRect event pd st =
  (Returned tt,
   Document (windows st) (dragState st) FocusDesktop
     (if pd then S (prevented st) else prevented st) (others st)).
Proof.
  intros Hf. unfold handleMouseDown.
  rewrite hbind_run, preventDefaultIf_run, hbind_run, Hf.
  cbn [modify]. destruct (event_target event) as [e|] eqn:He; [|done].
  destruct (isDragElement (Some e)) eqn:Hd; [|done].
  apply isDragElement_focusable in Hd. congruence.
Qed.

(** A touch on the text of a title, with an empty list of touches. *)
Lemma handleMouseDown_elsewhere_title :
  handleMouseDown (Sample.fixedRect (Rect 20 300 200 150))
    (Sample.touchEvent "touchstart" (Some (Element (MoreSamples.hashed "title") 0)) [])
    false Sample.staleState =
  (Returned tt,
   DesktopState (windows Sample.staleState) (Some Sample.staleSession) FocusDesktop 0).
Proof.
  exact (handleMouseDown_elsewhere (Sample.fixedRect (Rect 20 300 200 150))
           (Sample.touchEvent "touchstart" (Some (Element (MoreSamples.hashed "title") 0)) [])
           false Sample.staleState eq_refl).
Defined.

(** A press on the body of a mounted window puts the window on top and
    focuses it; no rectangle and no session changes, and the position of
    the event is not read. *)
Theorem handleMouseDown_body getBoundingClientRect event pd st e w :
  event_target event = Some e ->
  isDragElement (Some e) = false ->
  JS.contains (classList e) "body" = true ->
  windows st !! parentNode e = Some w ->
  exists ws',
    handleMouseDown getBoundingClientRect event pd st =
      (Returned tt,
       Document ws' (dragState st) (FocusWindow (parentNode e))
         (if pd then S (prevented st) else prevented st) (others st)) /\
    Forall2 sameRect (windows st) ws' /\
    style_zIndex <$> ws' !! parentNode e = Some (zIndexOf (length (windows st) - 1)).
Proof.
  intros He Hd Hbody Hw. unfold handleMouseDown.
  rewrite hbind_run, preventDefaultIf_run, hbind_run.
  set (st1 := set_prevented st _).
  assert (Hf : isFocusableElement (event_target event) = true).
  { rewrite He. unfold isFocusableElement. by rewrite Hbody, orb_true_r. }
  rewrite Hf, He, Hd.
  destruct (handleFocusChange_effect event st1) as (o & ws' & f & os' & Hrun & Hrect).
  destruct (handleFocusChange_target st1 event e w He Hw) as (_ & _ & _ & _ & Htop).
  rewrite (handleFocusChange_window st1 event e w He Hw) in Hrun, Htop |- *.
  pose proof (f_equal (fun r => windows r.2) Hrun) as Hws.
  cbn [snd windows set_windows set_activeElement] in Hws, Htop. rewrite <- Hws in Hrect.
  eexists. split; [reflexivity|]. split; [exact Hrect|].
  match goal with
  | |- context [windows (set_windows st1 ?l)] => change (windows (set_windows st1 l)) with l
  end.
  rewrite Htop. cbn. unfold zIndexOf. do 3 f_equal.
  apply lookup_lt_Some in Hw. change (windows st1) with (windows st). lia.
Qed.

(** A touch on the body of the second window, with no touch point. *)
Lemma handleMouseDown_body_second :
  exists ws',
    handleMouseDown (Sample.fixedRect (Rect 20 300 200 150))
      (Sample.touchEvent "touchstart" (Some (Sample.bodyElement 1)) [])
      false Sample.staleState =
      (Returned tt, DesktopState ws' (Some Sample.staleSession) (FocusWindow 1) 0) /\
    style_zIndex <$> ws' !! 1%nat = Some "1".
Proof.
  destruct (handleMouseDown_body (Sample.fixedRect (Rect 20 300 200 150))
              (Sample.touchEvent "touchstart" (Some (Sample.bodyElement 1)) [])
              false Sample.staleState (Sample.bodyElement 1)
              (Window "300px" "20px" "200px" "150px" "1")
              eq_refl eq_refl eq_refl eq_refl) as (ws' & Hrun & _ & Htop).
  exists ws'. split; [exact Hrun | exact Htop].
Defined.

(** ** More on the geometry of a session *)

(** Positions are taken relative to the start of the session, so moves
    do not add up: after two pointer-moves the windows are what the second
    move alone would have made them, provided the second move writes every
    field its row lists: no left or top that is zero, no width or height
    that is zero or negative. *)
Theorem handleMouseMove_last_wins minWidth minHeight bodyMargin st s k w
    event1 pd1 event2 pd2 x1 y1 x2 y2 :
  dragState st = Some s ->
  handleOf (drag_element s) = Some k ->
  windows st !! parentNode (drag_element s) = Some w ->
  getEventPosition event1 = Returned (x1, y1) ->
  getEventPosition event2 = Returned (x2, y2) ->
  let r2 := geometryTable minWidth minHeight bodyMargin k s x2 y2 in
  row_left r2 <> Some 0 -> row_top r2 <> Some 0 ->
  (forall v, row_width r2 = Some v -> 0 < v) ->
  (forall v, row_height r2 = Some v -> 0 < v) ->
  windows (handleMouseMove minWidth minHeight bodyMargin event2 pd2
             (handleMouseMove minWidth minHeight bodyMargin event1 pd1 st).2).2 =
  windows (handleMouseMove minWidth minHeight bodyMargin event2 pd2 st).2.
Proof.
  intros Hs Hk Hw Hpos1 Hpos2 r2 Hl Ht Hwd Hh.
  rewrite (handleMouseMove_applyRow _ _ _ _ _ _ _ event1 pd1 _ _ Hs Hk Hw Hpos1).
  rewrite (handleMouseMove_applyRow _ _ _ _ _ _ _ event2 pd2 _ _ Hs Hk Hw Hpos2).
  cbn [snd].
  erewrite (handleMouseMove_applyRow _ _ _ _ _ k _ event2 pd2 x2 y2); [| exact Hs | exact Hk | | exact Hpos2].
  2:{ cbn [windows set_windows]. apply list_lookup_insert_eq. eapply lookup_lt_Some, Hw. }
  cbn [snd windows set_windows]. rewrite list_insert_insert_eq. f_equal.
  assert (Hwd' : forall v, row_width r2 = Some v -> (0 <? v) = true)
    by (intros v Hv; apply Z.ltb_lt; eauto).
  assert (Hh' : forall v, row_height r2 = Some v -> (0 <? v) = true)
    by (intros v Hv; apply Z.ltb_lt; eauto).
  clear Hwd Hh. subst r2. unfold applyRow.
  destruct k; cbn [geometryTable row_left row_top row_width row_height written
                   writtenLength
                   style_left style_top style_width style_height style_zIndex]
    in Hl, Ht, Hwd', Hh' |- *;
    rewrite ?(Hwd' _ eq_refl), ?(Hh' _ eq_refl);
    repeat match goal with
    | |- context [?v =? 0] => destruct (Z.eqb_spec v 0); [congruence|]
    end; reflexivity.
Qed.

(** The east resize of a window 100 wide, anchored at x = 150: the
    pointer goes to x = 170 and then back to x = 120. *)
Lemma handleMouseMove_last_wins_east :
  windows (handleMouseMove 50 40 8 (Sample.mouse "mousemove" None 120 50) true
             (handleMouseMove 50 40 8 (Sample.mouse "mousemove" None 170 50) true
                Sample.eastState).2).2 =
  [Window "50px" "0px" "70px" "100px" "0"].
Proof.
  rewrite (handleMouseMove_last_wins 50 40 8 Sample.eastState Sample.eastSession resizeE
             (Window "50px" "0px" "100px" "100px" "0")
             (Sample.mouse "mousemove" None 170 50) true
             (Sample.mouse "mousemove" None 120 50) true 170 50 120 50
             eq_refl eq_refl eq_refl eq_refl eq_refl);
    [reflexivity | discriminate | discriminate
    | intros v [= <-]; reflexivity | intros v [=] ].
Defined.



(** Bringing the pointer back to where the press was brings back the
    start rectangle: for a start rectangle that is not smaller than the
    minimums (and a margin that is not negative), a pointer-move at the
    anchor leaves each field alone or
    writes the value it had at the start of the session. *)
Theorem handleMouseMove_at_anchor minWidth minHeight bodyMargin st s k w event pd :
  minWidth <= drag_width s ->
  minHeight + bodyMargin + 1 <= drag_height s ->
  0 <= bodyMargin ->
  dragState st = Some s ->
  handleOf (drag_element s) = Some k ->
  windows st !! parentNode (drag_element s) = Some w ->
  getEventPosition event = Returned (drag_x s, drag_y s) ->
  exists w',
    windows (handleMouseMove minWidth minHeight bodyMargin event pd st).2
      !! parentNode (drag_element s) = Some w' /\
    (style_left w' = style_left w \/ style_left w' = JS.px (drag_left s)) /\
    (style_top w' = style_top w \/ style_top w' = JS.px (drag_top s)) /\
    (style_width w' = style_width w \/ style_width w' = JS.px (drag_width s)) /\
    (style_height w' = style_height w \/ style_height w' = JS.px (drag_height s)).
Proof.
  intros Hwmin Hhmin Hmargin Hs Hk Hw Hpos.
  rewrite (handleMouseMove_applyRow _ _ _ _ _ _ _ _ _ _ _ Hs Hk Hw Hpos).
  cbn [snd windows set_windows]. eexists.
  split; [apply list_lookup_insert_eq; eapply lookup_lt_Some, Hw|].
  unfold applyRow, geometryTable.
  replace (drag_left s + drag_x s - drag_x s) with (drag_left s) by lia.
  replace (drag_top s + drag_y s - drag_y s) with (drag_top s) by lia.
  replace (drag_width s + drag_x s - drag_x s) with (drag_width s) by lia.
  replace (drag_height s + drag_y s - drag_y s) with (drag_height s) by lia.
  replace (drag_width s - drag_x s + drag_x s) with (drag_width s) by lia.
  replace (drag_height s - drag_y s + drag_y s) with (drag_height s) by lia.
  rewrite (Z.min_l (drag_left s)), (Z.min_l (drag_top s)),
    (Z.max_l (drag_width s)), (Z.max_l (drag_height s)) by lia.
  destruct k; cbn; unfold written;
    repeat match goal with
    | |- context [?v =? 0] => destruct (v =? 0)
    | |- context [0 <? ?v] => destruct (0 <? v)
    end; auto.
Qed.

(** The move of the worked example, back at the anchor (50, 50). *)
Lemma handleMouseMove_at_anchor_move :
  windows (handleMouseMove 50 40 8 (Sample.mouse "mousemove" None 50 50) true
             (handleMouseMove 50 40 8 (Sample.mouse "mousemove" None 70 40) true
                Sample.moveState).2).2 =
  windows Sample.moveState.
Proof.
  destruct (handleMouseMove_at_anchor 50 40 8
              (handleMouseMove 50 40 8 (Sample.mouse "mousemove" None 70 40) true
                 Sample.moveState).2
              Sample.moveSession move (Window "120px" "90px" "200px" "150px" "0")
              (Sample.mouse "mousemove" None 50 50) true
              ltac:(discriminate) ltac:(discriminate) ltac:(discriminate)
              eq_refl eq_refl eq_refl eq_refl) as (w' & Hw' & _).
  vm_compute in Hw'. injection Hw' as <-. reflexivity.
Defined.

(** ** The children of a window and their classification *)

Lemma child_contains styles name parent m :
  (forall name m, m ∈ markerNames -> JS.contains (styles name) m = false) ->
  m ∈ markerNames ->
  JS.contains (classList (WindowComponent.child styles name parent)) m = String.eqb m name.
Proof.
  intros Hstyles Hm. cbn. unfold JS.contains in Hstyles.
  by rewrite (Hstyles name m Hm), orb_false_r.
Qed.

Lemma className_marker k : className k ∈ markerNames.
Proof. destruct k; cbn; unfold markerNames; repeat constructor. Qed.

Lemma child_classified styles name parent :
  (forall name m, m ∈ markerNames -> JS.contains (styles name) m = false) ->
  handleOf (WindowComponent.child styles name parent) =
    find (fun k => String.eqb (className k) name)
      [move; resizeE; resizeS; resizeSE; resizeNE; resizeW; resizeN; resizeSW; resizeNW] /\
  isDragElement (Some (WindowComponent.child styles name parent)) =
    existsb (fun k => String.eqb (className k) name)
      [move; resizeE; resizeS; resizeSE; resizeNE; resizeW; resizeN; resizeSW; resizeNW] /\
  isFocusableElement (Some (WindowComponent.child styles name parent)) =
    existsb (fun m => String.eqb m name) markerNames.
Proof.
  intros Hstyles.
  assert (Hc : forall m, m ∈ markerNames ->
            JS.contains (classList (WindowComponent.child styles name parent)) m =
            String.eqb m name)
    by (intros m Hm; by apply child_contains).
  unfold handleOf, isFocusableElement, isDragElement.
  cbn [find existsb className markerNames].
  rewrite !Hc by (unfold markerNames; repeat constructor).
  repeat match goal with
  | |- context [String.eqb ?a name] =>
      let b := fresh "b" in generalize (String.eqb a name); intros b
  end.
  repeat match goal with b : bool |- _ => destruct b end; repeat split.
Qed.

(** What [Window] renders is what the desktop expects, as long as the
    class names of the style sheet are not themselves marker names: each
    resizer and the title bar is a drag handle of its own kind, the body
    is focusable without being a drag handle, a window that is not
    resizable has the title bar as its only handle, and every child
    belongs to the window. *)
Theorem Window_children_classified styles isResizable parent :
  (forall name m, m ∈ markerNames -> JS.contains (styles name) m = false) ->
  let cs := WindowComponent.children styles isResizable parent in
  handleOf <$> cs =
    (if isResizable
     then [Some resizeN; Some resizeE; Some resizeS; Some resizeW;
           Some resizeNW; Some resizeNE; Some resizeSW; Some resizeSE]
     else []) ++ [Some move; None] /\
  (fun c => isDragElement (Some c)) <$> cs =
    (if isResizable then replicate 8 true else []) ++ [true; false] /\
  (fun c => isFocusableElement (Some c)) <$> cs =
    (if isResizable then replicate 8 true else []) ++ [true; true] /\
  Forall (fun c => parentNode c = parent) cs.
Proof.
  intros Hstyles cs. subst cs. unfold WindowComponent.children.
  pose proof (fun name => child_classified styles name parent Hstyles) as Hc.
  destruct isResizable; cbn [app fmap list_fmap replicate];
    rewrite ?(proj1 (Hc _)), ?(proj1 (proj2 (Hc _))), ?(proj2 (proj2 (Hc _)));
    repeat split; repeat constructor.
Qed.

(** The class names of a style sheet module. *)
Lemma Window_children_classified_hashed :
  handleOf <$> WindowComponent.children MoreSamples.hashed false 3 = [Some move; None] /\
  (fun c => isFocusableElement (Some c)) <$> WindowComponent.children MoreSamples.hashed true 3
    = replicate 10 true.
Proof.
  assert (Hstyles : forall name m, m ∈ markerNames ->
            JS.contains (MoreSamples.hashed name) m = false).
  { intros name m Hm. unfold MoreSamples.hashed. cbn.
    unfold markerNames in Hm.
    repeat (apply elem_of_cons in Hm as [->|Hm]; [reflexivity|]).
    by apply elem_of_nil in Hm. }
  split.
  - exact (proj1 (Window_children_classified MoreSamples.hashed false 3 Hstyles)).
  - exact (proj1 (proj2 (proj2 (Window_children_classified MoreSamples.hashed true 3 Hstyles)))).
Defined.

(** ** More on the focus stack with at most ten windows *)

Lemma Permutation_seq_digits zs :
  zs ≡ₚ seq 0 (length zs) -> (length zs <= 10)%nat -> Forall (fun z => (z < 10)%nat) zs.
Proof.
  intros Hperm Hten. apply Forall_forall. intros z Hz. rewrite Hperm in Hz.
  apply elem_of_seq in Hz. lia.
Qed.

Lemma promote_length zs t : length (promote zs t) = length zs.
Proof.
  unfold promote. destruct (zs !! t); [|done]. by rewrite length_insert, length_fmap.
Qed.

(** Pressing a window twice is the same as pressing it once. *)
Theorem handleFocusChange_twice st event e :
  event_target event = Some e ->
  (parentNode e < length (windows st))%nat ->
  (length (windows st) <= 10)%nat ->
  zOrdered (windows st) ->
  style_zIndex <$> windows (handleFocusChange event (handleFocusChange event st).2).2 =
  style_zIndex <$> windows (handleFocusChange event st).2.
Proof.
  intros He Ht Hten Hord.
  destruct (zOrdered_values _ Hord) as (zs & Hzs & Hperm & Hlen).
  pose proof (Permutation_seq_digits zs Hperm ltac:(lia)) as Hdigits.
  destruct (handleFocusChange_promote st event e zs He Ht Hten Hzs Hdigits)
    as (_ & Hlen1 & Hzs1).
  set (st1 := (handleFocusChange event st).2) in *.
  set (zs1 := promote zs (parentNode e)) in *.
  assert (Hlenzs1 : length zs1 = length zs) by apply promote_length.
  assert (Hperm1 : zs1 ≡ₚ seq 0 (length zs1)).
  { rewrite Hlenzs1. apply promote_Permutation; [lia | done]. }
  pose proof (Permutation_seq_digits zs1 Hperm1 ltac:(lia)) as Hdigits1.
  destruct (handleFocusChange_promote st1 event e zs1 He ltac:(lia) ltac:(lia) Hzs1 Hdigits1)
    as (_ & _ & ->).
  rewrite Hzs1. f_equal. apply promote_topmost; [done|].
  unfold zs1, promote.
  destruct (lookup_lt_is_Some_2 zs (parentNode e) ltac:(lia)) as [c Hc]. rewrite Hc.
  rewrite list_lookup_insert_eq by (rewrite length_fmap; lia).
  f_equal. rewrite length_insert, length_fmap. lia.
Qed.

(** Two presses on the first of three stacked windows. *)
Lemma handleFocusChange_twice_first :
  style_zIndex <$>
    windows (handleFocusChange (Sample.pressBody 0)
               (handleFocusChange (Sample.pressBody 0)
                  (Sample.idle (Sample.stacked 3))).2).2 = ["2"; "0"; "1"].
Proof.
  rewrite (handleFocusChange_twice (Sample.idle (Sample.stacked 3)) (Sample.pressBody 0)
             (Sample.bodyElement 0) eq_refl).
  - reflexivity.
  - cbn. lia.
  - cbn. lia.
  - unfold zOrdered. by vm_compute.
Defined.

(** With at most ten windows a focus change puts the pressed window
    strictly above all others and keeps the order of the others among
    themselves; each of them keeps its value or goes down by one. *)
Theorem handleFocusChange_keeps_order st event e zs :
  event_target event = Some e ->
  (parentNode e < length (windows st))%nat ->
  (length (windows st) <= 10)%nat ->
  style_zIndex <$> windows st = zIndexOf <$> zs ->
  zs ≡ₚ seq 0 (length zs) ->
  exists zs',
    style_zIndex <$> windows (handleFocusChange event st).2 = zIndexOf <$> zs' /\
    zs' !! parentNode e = Some (length zs - 1)%nat /\
    (forall i a a', i <> parentNode e -> zs !! i = Some a -> zs' !! i = Some a' ->
       (a' < length zs - 1)%nat /\ (a' = a \/ a' = (a - 1)%nat)) /\
    (forall i j a b a' b',
       i <> parentNode e -> j <> parentNode e ->
       zs !! i = Some a -> zs !! j = Some b ->
       zs' !! i = Some a' -> zs' !! j = Some b' ->
       (a < b)%nat -> (a' < b')%nat).
Proof.
  intros He Ht Hten Hzs Hperm.
  assert (Hlen : length zs = length (windows st)).
  { apply (f_equal length) in Hzs. by rewrite !length_fmap in Hzs. }
  pose proof (Permutation_seq_digits zs Hperm ltac:(lia)) as Hdigits.
  destruct (handleFocusChange_promote st event e zs He Ht Hten Hzs Hdigits)
    as (_ & _ & Hzs').
  exists (promote zs (parentNode e)). split; [exact Hzs'|].
  unfold promote.
  destruct (lookup_lt_is_Some_2 zs (parentNode e) ltac:(lia)) as [c Hc]. rewrite Hc.
  assert (Hnd : NoDup zs) by (rewrite Hperm; apply NoDup_seq).
  assert (Hrange : forall i a, zs !! i = Some a -> (a < length zs)%nat).
  { intros i a Ha. assert (Hin : a ∈ seq 0 (length zs))
      by (rewrite <- Hperm; eapply list_elem_of_lookup_2, Ha).
    apply elem_of_seq in Hin. lia. }
  assert (Hother : forall i a, i <> parentNode e -> zs !! i = Some a -> a <> c).
  { intros i a Hne Ha ->. apply Hne. eapply NoDup_lookup; eauto. }
  assert (Hshift : forall i a a', i <> parentNode e -> zs !! i = Some a ->
            <[parentNode e := Nat.max (length zs - 1) 0]>
              ((fun z => if (c <? z)%nat then (z - 1)%nat else z) <$> zs) !! i = Some a' ->
            a' = if (c <? a)%nat then (a - 1)%nat else a).
  { intros i a a' Hne Ha Ha'.
    rewrite list_lookup_insert_ne, list_lookup_fmap, Ha in Ha' by done.
    by injection Ha' as <-. }
  split; [|split].
  - rewrite list_lookup_insert_eq by (rewrite length_fmap; lia). f_equal. lia.
  - intros i a a' Hne Ha Ha'. rewrite (Hshift i a a' Hne Ha Ha').
    pose proof (Hrange _ _ Ha). pose proof (Hrange _ _ Hc).
    pose proof (Hother _ _ Hne Ha).
    destruct (Nat.ltb_spec c a); split; first [lia | auto].
  - intros i j a b a' b' Hi Hj Ha Hb Ha' Hb' Hab.
    rewrite (Hshift i a a' Hi Ha Ha'), (Hshift j b b' Hj Hb Hb').
    pose proof (Hother _ _ Hi Ha). pose proof (Hother _ _ Hj Hb).
    destruct (Nat.ltb_spec c a), (Nat.ltb_spec c b); lia.
Qed.

(** Four windows holding 2, 0, 3, 1; the second one is pressed. *)
Lemma handleFocusChange_keeps_order_four :
  exists zs',
    style_zIndex <$>
      windows (handleFocusChange (Sample.pressBody 1)
                 (Sample.idle ((fun z => Window "0px" "0px" "200px" "150px" (zIndexOf z))
                                 <$> [2; 0; 3; 1]%nat))).2 = zIndexOf <$> zs' /\
    zs' !! 1%nat = Some 3%nat.
Proof.
  set (st := Sample.idle ((fun z => Window "0px" "0px" "200px" "150px" (zIndexOf z))
                            <$> [2; 0; 3; 1]%nat)).
  assert (Ht : (parentNode (Sample.bodyElement 1) < length (windows st))%nat)
    by (change (1 < 4)%nat; lia).
  assert (Hten : (length (windows st) <= 10)%nat) by (change (4 <= 10)%nat; lia).
  assert (Hperm : [2; 0; 3; 1]%nat ≡ₚ seq 0 (length [2; 0; 3; 1]%nat))
    by (by apply (bool_decide_unpack _)).
  destruct (handleFocusChange_keeps_order st (Sample.pressBody 1) (Sample.bodyElement 1)
              [2; 0; 3; 1]%nat eq_refl Ht Hten eq_refl Hperm)
    as (zs' & Hzs' & Htop & _).
  exists zs'. split; [exact Hzs' | exact Htop].
Defined.

(** Three stacked windows pressed in the order first, third, first. *)
Lemma focus_changes_zOrdered_three :
  zOrdered
    (windows (fold_left (fun st event => (handleFocusChange event st).2)
                [Sample.pressBody 0; Sample.pressBody 2; Sample.pressBody 0]
                (Sample.idle (Sample.stacked 3)))).
Proof.
  apply focus_changes_zOrdered_upto_ten.
  - cbn. lia.
  - unfold zOrdered. by vm_compute.
  - repeat constructor; eexists; (split; [reflexivity | cbn; lia]).
Defined.
